(** * htknx: datapoints, fault notification and configuration validators

    A shallow embedding of the decision layer of htknx:

    - [htdatapoint.py]        : [HtDataPoint] (construction, broadcast, group
                                read/write, set);
    - [htfaultnotification.py]: [HtFaultNotification.do];
    - [config_validation.py]  : the validators.

    The coroutines of the source run to completion one at a time, so each is
    embedded as a computation over the fields of its object that may raise,
    and that records, in order, what it logs and what it hands to the bus. *)

From Stdlib Require Import ZArith List String Ascii Bool Lia DecimalString DecimalN DecimalPos.
From Stdlib Require Import Floats.SpecFloat.
Import ListNotations.

Local Open Scope string_scope.
Local Open Scope list_scope.
Local Open Scope Z_scope.

(** ** Computations over an object, with exceptions and a trace

    [Eff S X E A]: a method body run on an object with fields [S].  It
    returns a value or raises an [X]; the fields keep every assignment made
    before the raise, as in Python; [E] is the type of observable effects. *)

Module Eff.

Section Defs.
Context {S X E : Type}.

Definition Eff (A : Type) : Type := S -> (X + A) * S * list E.

Definition ret {A} (a : A) : Eff A := fun s => (inr a, s, []).

Definition bind {A B} (m : Eff A) (k : A -> Eff B) : Eff B :=
  fun s =>
    match m s with
    | (inl x, s1, t1) => (inl x, s1, t1)
    | (inr a, s1, t1) =>
        match k a s1 with
        | (r, s2, t2) => (r, s2, t1 ++ t2)
        end
    end.

Definition get : Eff S := fun s => (inr s, s, []).
Definition put (s' : S) : Eff unit := fun _ => (inr tt, s', []).
Definition modify (f : S -> S) : Eff unit := fun s => (inr tt, f s, []).
Definition raise {A} (x : X) : Eff A := fun s => (inl x, s, []).
Definition emit (e : E) : Eff unit := fun s => (inr tt, s, [e]).

(** [try: m except Exception as ex: h ex]. *)
Definition try_except {A} (m : Eff A) (h : X -> Eff A) : Eff A :=
  fun s =>
    match m s with
    | (inl x, s1, t1) =>
        match h x s1 with
        | (r, s2, t2) => (r, s2, t1 ++ t2)
        end
    | (inr a, s1, t1) => (inr a, s1, t1)
    end.

Definition result {A} (r : (X + A) * S * list E) : X + A := fst (fst r).
Definition final {A} (r : (X + A) * S * list E) : S := snd (fst r).
Definition trace {A} (r : (X + A) * S * list E) : list E := snd r.
End Defs.

Arguments Eff : clear implicits.

End Eff.

Declare Scope eff_scope.
Delimit Scope eff_scope with eff.
Notation "x <- m ;; k" := (Eff.bind m (fun x => k))
  (at level 61, m at next level, right associativity) : eff_scope.
Notation "m ;; k" := (Eff.bind m (fun _ => k))
  (at level 61, right associativity) : eff_scope.

(** ** Python values

    The scalars a caller, a decoded payload or a configuration record hands
    over.  [bool] is a subclass of [int] in Python: [True == 1] and
    [True - 0 == 1].  A [float] is an IEEE 754 binary64 number: a
    [spec_float] at precision 53, rounded to nearest, ties to even. *)

Definition float : Type := spec_float.
Definition prec : Z := 53.
Definition emax : Z := 1024.

Inductive PyVal : Type :=
| PyBool (b : bool)
| PyInt (z : Z)
| PyFloat (f : float)
| PyStr (s : string).

Inductive Exn : Type :=
| CouldNotParseTelegram
| CouldNotParseAddress
| ConversionError
| TypeError
| OverflowError
| Raised (what : string).

(** The float nearest to the integer [z]; an infinity beyond the range. *)
Definition float_of_int (z : Z) : float := binary_normalize prec emax z 0 false.

(** The float nearest to [m * 10 ^ e10], for [m] not negative: a product
    beyond the range is an infinity, a quotient below half the least
    positive float is zero. *)
Definition float_of_decimal (negative : bool) (m : Z) (e10 : Z) : float :=
  match m with
  | Z.pos p =>
      if 0 <=? e10 then
        if 400 <? e10 then S754_infinity negative
        else binary_normalize prec emax ((if negative then - m else m) * 10 ^ e10) 0 false
      else if Z.log2 m + 1081 <? 3 * - e10 then S754_zero negative
      else SFdiv prec emax (S754_finite negative p 0)
                           (S754_finite false (Z.to_pos (10 ^ (- e10))) 0)
  | _ => S754_zero negative
  end.

(** The numbers among the values. *)
Inductive Number : Type :=
| Int (z : Z)
| Float (f : float).

Definition number_of (v : PyVal) : option Number :=
  match v with
  | PyBool true => Some (Int 1)
  | PyBool false => Some (Int 0)
  | PyInt z => Some (Int z)
  | PyFloat f => Some (Float f)
  | PyStr _ => None
  end.

Definition value_of (n : Number) : PyVal :=
  match n with
  | Int z => PyInt z
  | Float f => PyFloat f
  end.

(** A float against an [int]: Python compares the two exactly, without
    converting the [int].  [None] for a nan. *)
Definition float_compare_int (f : float) (z : Z) : option comparison :=
  match f with
  | S754_nan => None
  | S754_zero _ => Some (0 ?= z)
  | S754_infinity s => Some (if s then Lt else Gt)
  | S754_finite s m e =>
      let mantissa := if s then Z.neg m else Z.pos m in
      Some (if 0 <=? e then mantissa * 2 ^ e ?= z else mantissa ?= z * 2 ^ (- e))
  end.

Definition compare (a b : Number) : option comparison :=
  match a, b with
  | Int x, Int y => Some (x ?= y)
  | Float f, Float g => SFcompare f g
  | Float f, Int y => float_compare_int f y
  | Int x, Float g => option_map CompOpp (float_compare_int g x)
  end.

(** [a != b]. *)
Definition py_ne (a b : PyVal) : bool :=
  match number_of a, number_of b with
  | Some x, Some y =>
      match compare x y with
      | Some Eq => false
      | _ => true
      end
  | None, None =>
      match a, b with
      | PyStr s, PyStr t => negb (String.eqb s t)
      | _, _ => true
      end
  | _, _ => true
  end.

(** [a != b] where [b] may be [None] and [a] is not. *)
Definition py_ne_opt (a : PyVal) (b : option PyVal) : bool :=
  match b with
  | None => true
  | Some b => py_ne a b
  end.

(** [float(n)] inside an operation of an [int] with a float: an [int]
    beyond the range raises [OverflowError]. *)
Definition as_float (n : Number) : Exn + float :=
  match n with
  | Float f => inr f
  | Int z =>
      match float_of_int z with
      | S754_infinity _ => inl OverflowError
      | f => inr f
      end
  end.

(** [a - b]. *)
Definition py_sub (a b : PyVal) : Exn + PyVal :=
  match number_of a, number_of b with
  | Some (Int x), Some (Int y) => inr (PyInt (x - y))
  | Some x, Some y =>
      match as_float x, as_float y with
      | inr f, inr g => inr (PyFloat (SFsub prec emax f g))
      | inl ex, _ => inl ex
      | _, inl ex => inl ex
      end
  | _, _ => inl TypeError
  end.

(** [abs(a)]. *)
Definition py_abs (a : PyVal) : Exn + PyVal :=
  match number_of a with
  | Some (Int x) => inr (PyInt (Z.abs x))
  | Some (Float f) => inr (PyFloat (SFabs f))
  | None => inl TypeError
  end.

(** [a >= b]: numbers by value, texts by their code points. *)
Definition py_ge (a b : PyVal) : Exn + bool :=
  match number_of a, number_of b with
  | Some x, Some y =>
      match compare x y with
      | Some Gt | Some Eq => inr true
      | _ => inr false
      end
  | None, None =>
      match a, b with
      | PyStr s, PyStr t =>
          match String.compare s t with
          | Lt => inr false
          | _ => inr true
          end
      | _, _ => inl TypeError
      end
  | _, _ => inl TypeError
  end.

(** The truth value of what a lookup answers, as an [if] reads it;
    [None] for a missing key. *)
Definition truthy (v : option PyVal) : bool :=
  match v with
  | None => false
  | Some (PyBool b) => b
  | Some (PyInt z) => negb (z =? 0)
  | Some (PyFloat (S754_zero _)) => false
  | Some (PyFloat _) => true
  | Some (PyStr s) => negb (String.eqb s "")
  end.

(** ** The remote value of the bus library, as the datapoint uses it

    [RemoteValueSwitch] and [RemoteValueSensor] are classes of the bus
    library (xknx); the datapoint consumes four of their operations: the
    [value] property, [set], [process] and [to_knx].  The transcoding of a
    value to and from its bus payload depends on the class (and, for a
    sensor, on its value type); it is the interface [Transcoder].  Encoding
    and decoding raise where the class has no payload for a value, or no
    value for a payload. *)

Inductive RemoteValueClass : Type :=
| RemoteValueSwitch
| RemoteValueSensor (value_type : PyVal).

Definition is_switch (c : RemoteValueClass) : bool :=
  match c with RemoteValueSwitch => true | RemoteValueSensor _ => false end.

Definition is_sensor (c : RemoteValueClass) : bool :=
  match c with RemoteValueSwitch => false | RemoteValueSensor _ => true end.

Class Transcoder (Payload : Type) : Type := {
  to_knx : RemoteValueClass -> PyVal -> Exn + Payload;
  from_knx : RemoteValueClass -> Payload -> Exn + PyVal;
  payload_valid : RemoteValueClass -> Payload -> bool
}.

Definition GroupAddress : Type := N.

Record Telegram (Payload : Type) : Type := mkTelegram {
  destination_address : GroupAddress;
  telegram_payload : Payload
}.
Arguments mkTelegram {Payload}.
Arguments destination_address {Payload}.
Arguments telegram_payload {Payload}.

(** A remote value built without a group address has none: it takes no
    telegram and sends none. *)
Record RemoteValue (Payload : Type) : Type := mkRemoteValue {
  rv_class : RemoteValueClass;
  group_address : option GroupAddress;
  payload : option Payload
}.
Arguments mkRemoteValue {Payload}.
Arguments rv_class {Payload}.
Arguments group_address {Payload}.
Arguments payload {Payload}.

(** ** htdatapoint.py *)

Module HtDataPoint.

Section Model.
Context {Payload : Type} `{Transcoder Payload}.

(** The fields of an [HtDataPoint]; the three flags by their truth
    value. *)
Record HtDataPoint : Type := mkHtDataPoint {
  name : string;
  param_value : RemoteValue Payload;
  writable : bool;
  cyclic_sending : bool;
  send_on_change : bool;
  on_change_of : option PyVal;
  last_sent_value : option PyVal
}.

(** What an operation leaves behind besides the fields: its log lines and
    the telegrams it hands to the bus ([response] tells a read reply from
    a spontaneous write). *)
Inductive Event : Type :=
| Info_group_read (telegram : Telegram Payload)
| Info_group_write (telegram : Telegram Payload)
| Warning_non_writable (name : string) (value : option PyVal)
| Info_set_param_async (name : string) (value : option PyVal)
| Bus_send (address : GroupAddress) (p : Payload) (response : bool).

Definition is_send (e : Event) : bool :=
  match e with Bus_send _ _ _ => true | _ => false end.

Definition is_warning (e : Event) : bool :=
  match e with Warning_non_writable _ _ => true | _ => false end.

Definition is_forward (e : Event) : bool :=
  match e with Info_set_param_async _ _ => true | _ => false end.

(** [transmits r]: the run handed at least one telegram to the bus. *)
Definition transmits {A} (r : (Exn + A) * HtDataPoint * list Event) : bool :=
  existsb is_send (Eff.trace r).

Definition Method (A : Type) : Type := Eff.Eff HtDataPoint Exn Event A.

(** A call that answers or raises, inside a method. *)
Definition lift {A} (r : Exn + A) : Method A :=
  match r with
  | inl ex => Eff.raise ex
  | inr a => Eff.ret a
  end.

(** [a and b], where evaluating [b] may raise. *)
Definition and_then (a : bool) (b : Method bool) : Method bool :=
  if a then b else Eff.ret false.

Definition with_payload (self : HtDataPoint) (p : option Payload) : HtDataPoint :=
  mkHtDataPoint (name self)
    (mkRemoteValue (rv_class (param_value self))
                   (group_address (param_value self)) p)
    (writable self) (cyclic_sending self) (send_on_change self)
    (on_change_of self) (last_sent_value self).

Definition with_last_sent_value (self : HtDataPoint) (v : option PyVal) : HtDataPoint :=
  mkHtDataPoint (name self) (param_value self) (writable self)
    (cyclic_sending self) (send_on_change self) (on_change_of self) v.

(** *** The remote value's operations, on [self.param_value] *)

(** [self.param_value.value]: [None] while no payload is cached, the
    decoded payload otherwise; a cached payload that does not decode
    raises. *)
Definition value (self : HtDataPoint) : Exn + option PyVal :=
  match payload (param_value self) with
  | None => inr None
  | Some p =>
      match from_knx (rv_class (param_value self)) p with
      | inl ex => inl ex
      | inr v => inr (Some v)
      end
  end.

(** [self.param_value.to_knx(value)]. *)
Definition param_to_knx (self : HtDataPoint) (v : PyVal) : Exn + Payload :=
  to_knx (rv_class (param_value self)) v.

(** [self.param_value.payload = p]. *)
Definition assign_payload (p : Payload) : Method unit :=
  Eff.modify (fun self => with_payload self (Some p)).

(** [await self.param_value.set(value, response=response)].  Without a
    group address the library returns at once.  Otherwise it encodes the
    value, which may raise, and hands the telegram to the bus.  It does not
    touch the cached payload: that one moves when a telegram is
    processed. *)
Definition param_value_set (v : PyVal) (response : bool) : Method unit :=
  (self <- Eff.get ;;
   match group_address (param_value self) with
   | None => Eff.ret tt
   | Some address =>
       p <- lift (param_to_knx self v) ;;
       Eff.emit (Bus_send address p response)
   end)%eff.

(** [await self.param_value.process(telegram)]: [False] for a telegram of
    another group address; raises on a payload the class does not take;
    otherwise caches the telegram's payload and answers [True]. *)
Definition param_value_process (telegram : Telegram Payload) : Method bool :=
  (self <- Eff.get ;;
   match group_address (param_value self) with
   | None => Eff.ret false
   | Some address =>
       if negb (N.eqb (destination_address telegram) address)
       then Eff.ret false
       else if negb (payload_valid (rv_class (param_value self)) (telegram_payload telegram))
       then Eff.raise CouldNotParseTelegram
       else (assign_payload (telegram_payload telegram) ;; Eff.ret true)
   end)%eff.

(** *** The methods of [HtDataPoint] *)

(** The stand-in of [broadcast_value]:
    [True if isinstance(self.param_value, RemoteValueSwitch) else 123]. *)
Definition stand_in (self : HtDataPoint) : PyVal :=
  if is_switch (rv_class (param_value self)) then PyBool true else PyInt 123.

(** The value read first is overwritten by the stand-in before the [None]
    test and the sending. *)
Definition broadcast_value (response : bool) : Method unit :=
  (self <- Eff.get ;;
   if response || cyclic_sending self then
     value_read <- lift (value self) ;;
     let value_sent : option PyVal := Some (stand_in self) in
     match value_sent with
     | None => Eff.ret tt
     | Some v => param_value_set v response
     end
   else Eff.ret tt)%eff.

Definition process_group_read (telegram : Telegram Payload) : Method unit :=
  (Eff.emit (Info_group_read telegram) ;;
   broadcast_value true)%eff.

(** After [process] has answered [True] a payload is cached, so the value
    read is not [None] when it is encoded again. *)
Definition process_group_write (telegram : Telegram Payload) : Method unit :=
  (Eff.emit (Info_group_write telegram) ;;
   accepted <- param_value_process telegram ;;
   if accepted then
     self <- Eff.get ;;
     v <- lift (value self) ;;
     if negb (writable self) then
       Eff.emit (Warning_non_writable (name self) v)
     else
       Eff.emit (Info_set_param_async (name self) v) ;;
       match v with
       | Some v' => p <- lift (param_to_knx self v') ;; assign_payload p
       | None => Eff.raise ConversionError
       end
   else Eff.ret tt)%eff.

(** [self.on_change_of is None or self.last_sent_value is None
     or abs(value - self.last_sent_value) >= abs(self.on_change_of)]. *)
Definition change_is_due (self : HtDataPoint) (v : PyVal) : Exn + bool :=
  match on_change_of self with
  | None => inr true
  | Some d =>
      match last_sent_value self with
      | None => inr true
      | Some l =>
          match py_sub v l with
          | inl ex => inl ex
          | inr difference =>
              match py_abs difference with
              | inl ex => inl ex
              | inr delta =>
                  match py_abs d with
                  | inl ex => inl ex
                  | inr threshold => py_ge delta threshold
                  end
              end
          end
      end
  end.

(** [value != self.param_value.value]. *)
Definition differs (v : PyVal) : Method bool :=
  (self <- Eff.get ;;
   cached <- lift (value self) ;;
   Eff.ret (py_ne_opt v cached))%eff.

(** [await self.param_value.set(value); self.last_sent_value = value]. *)
Definition send_and_record (v : PyVal) : Method unit :=
  (param_value_set v false ;;
   Eff.modify (fun self => with_last_sent_value self (Some v)))%eff.

(** [self.param_value.payload = self.param_value.to_knx(value)]. *)
Definition cache_only (v : PyVal) : Method unit :=
  (self <- Eff.get ;;
   p <- lift (param_to_knx self v) ;;
   assign_payload p)%eff.

Definition set (value_arg : option PyVal) : Method unit :=
  match value_arg with
  | None => Eff.ret tt
  | Some v =>
      (self <- Eff.get ;;
       switch_changed <- and_then (is_switch (rv_class (param_value self))) (differs v) ;;
       if (switch_changed : bool) then
         if send_on_change self then send_and_record v
         else cache_only v
       else
         sensor_changed <- and_then (is_sensor (rv_class (param_value self))) (differs v) ;;
         if (sensor_changed : bool) then
           due <- and_then (send_on_change self) (lift (change_is_due self v)) ;;
           if (due : bool) then send_and_record v
           else cache_only v
         else Eff.ret tt)%eff
  end.

(** The remote value takes the telegram: it is for its group address and
    carries a payload of its class. *)
Definition accepts (self : HtDataPoint) (telegram : Telegram Payload) : bool :=
  match group_address (param_value self) with
  | None => false
  | Some address =>
      N.eqb (destination_address telegram) address
      && payload_valid (rv_class (param_value self)) (telegram_payload telegram)
  end.

(** The remote value has a value for the payload. *)
Definition decodes (self : HtDataPoint) (p : Payload) : bool :=
  match from_knx (rv_class (param_value self)) p with
  | inl _ => false
  | inr _ => true
  end.

(** The threshold test in the words of the specification: no threshold,
    or no transmission recorded, or an absolute delta from the last
    transmitted value of at least the configured threshold. *)
Definition stated_change_is_due (self : HtDataPoint) (v : PyVal) : Exn + bool :=
  match on_change_of self with
  | None => inr true
  | Some threshold =>
      match last_sent_value self with
      | None => inr true
      | Some l =>
          match py_sub v l with
          | inl ex => inl ex
          | inr difference =>
              match py_abs difference with
              | inl ex => inl ex
              | inr delta => py_ge delta threshold
              end
          end
      end
  end.

(** The four operations a datapoint is driven by. *)
Inductive Op : Type :=
| OpSet (v : option PyVal)
| OpGroupWrite (telegram : Telegram Payload)
| OpGroupRead (telegram : Telegram Payload)
| OpBroadcast (response : bool).

Definition run_op (o : Op) : Method unit :=
  match o with
  | OpSet v => set v
  | OpGroupWrite t => process_group_write t
  | OpGroupRead t => process_group_read t
  | OpBroadcast r => broadcast_value r
  end.
End Model.

Arguments HtDataPoint : clear implicits.
Arguments Event : clear implicits.
Arguments Op : clear implicits.

(** *** A transcoder to run examples with

    A binary payload carries a small number, of which a switch decodes 0
    and 1; the payload of a sensor carries its number as it is, within the
    range of a temperature. *)
Inductive KnxPayload : Type :=
| DPTBinary (value : Z)
| DPTArray (value : Number).

Definition is_temperature (n : Number) : bool :=
  match compare n (Int (-273)), compare n (Int 670760) with
  | Some (Gt | Eq), Some (Lt | Eq) => true
  | _, _ => false
  end.

#[export] Instance plain_transcoder : Transcoder KnxPayload := {
  to_knx := fun c v =>
    match c, v with
    | RemoteValueSwitch, PyBool b => inr (DPTBinary (if b then 1 else 0))
    | RemoteValueSwitch, _ => inl ConversionError
    | RemoteValueSensor _, _ =>
        match number_of v with
        | Some n => if is_temperature n then inr (DPTArray n) else inl ConversionError
        | None => inl ConversionError
        end
    end;
  from_knx := fun c p =>
    match c, p with
    | RemoteValueSwitch, DPTBinary 0 => inr (PyBool false)
    | RemoteValueSwitch, DPTBinary 1 => inr (PyBool true)
    | RemoteValueSwitch, _ => inl CouldNotParseTelegram
    | RemoteValueSensor _, DPTArray n => inr (value_of n)
    | RemoteValueSensor _, _ => inl ConversionError
    end;
  payload_valid := fun c p =>
    match c, p with
    | RemoteValueSwitch, DPTBinary _ => true
    | RemoteValueSensor _, DPTArray _ => true
    | _, _ => false
    end
}.

(** A temperature sensor at group address 7, caching a whole number of
    degrees, and a switch at 9. *)
Definition sensor (cached : option Z) (send_on_change : bool)
    (on_change_of : option Z) (last_sent : option PyVal) : HtDataPoint KnxPayload :=
  mkHtDataPoint "temp"
    (mkRemoteValue (RemoteValueSensor (PyStr "temperature")) (Some 7%N)
                   (option_map (fun z => DPTArray (Int z)) cached))
    false false send_on_change (option_map PyInt on_change_of) last_sent.

Definition switch (cached : option Z) (writable : bool) : HtDataPoint KnxPayload :=
  mkHtDataPoint "pump" (mkRemoteValue RemoteValueSwitch (Some 9%N) (option_map DPTBinary cached))
    writable false true None None.

(** A temperature sensor built without a group address, with
    send-on-change. *)
Definition unaddressed : HtDataPoint KnxPayload :=
  mkHtDataPoint "temp" (mkRemoteValue (RemoteValueSensor (PyStr "temperature")) None None)
    false false true None None.

(** A temperature in tenths of a degree, as the float Python reads from
    that decimal. *)
Definition tenths (n : Z) : PyVal := PyFloat (float_of_decimal (n <? 0) (Z.abs n) (-1)).

End HtDataPoint.

(** ** htfaultnotification.py *)

Module HtFaultNotification.

(** [datetime] values are counted in microseconds since the epoch and
    [timedelta] values in microseconds, the resolution of both. *)
Definition datetime : Type := Z.
Definition timedelta : Type := Z.

Record HtFaultNotification : Type := mkHtFaultNotification {
  name : string;
  repeat_after : option timedelta;
  last_sent_at : option datetime;
  in_error : bool
}.

(** [__init__]. *)
Definition init (name : string) (repeat_after : option timedelta) : HtFaultNotification :=
  mkHtFaultNotification name repeat_after None false.

(** The record [get_last_fault_async] answers with. *)
Record Fault : Type := mkFault {
  idx : Z;
  err : Z;
  dt : datetime;
  msg : string
}.

(** What the outside answers during one tick: the heat pump's two queries
    and the two readings of the clock.  An [inl what] is an exception
    raised by the call. *)
Record Tick : Type := mkTick {
  in_error_async : string + bool;
  now_at_check : datetime;
  get_last_fault_async : string + Fault;
  now_at_send : datetime
}.

(** [Notify message]: the notification sends [message] to the bus. *)
Inductive Event : Type :=
| Notify (message : string)
| Log_exception (ex : Exn).

Definition is_notify (e : Event) : bool :=
  match e with Notify _ => true | Log_exception _ => false end.

Definition is_log_exception (e : Event) : bool :=
  match e with Notify _ => false | Log_exception _ => true end.

Definition Method (A : Type) : Type := Eff.Eff HtFaultNotification Exn Event A.

Definition with_in_error (self : HtFaultNotification) (b : bool) : HtFaultNotification :=
  mkHtFaultNotification (name self) (repeat_after self) (last_sent_at self) b.

Definition with_last_sent_at (self : HtFaultNotification) (t : option datetime)
  : HtFaultNotification :=
  mkHtFaultNotification (name self) (repeat_after self) t (in_error self).

(** [datetime.now() - self.last_sent_at >= self.repeat_after]; subtracting
    [None] from a [datetime] raises [TypeError]. *)
Definition interval_elapsed (now : datetime) (d : timedelta) : Method bool :=
  (self <- Eff.get ;;
   match last_sent_at self with
   | None => Eff.raise TypeError
   | Some t => Eff.ret (d <=? now - t)
   end)%eff.

(** [not self.in_error or (self.repeat_after is not None and ...)], with
    Python's left-to-right short circuit. *)
Definition announce_due (now : datetime) : Method bool :=
  (self <- Eff.get ;;
   if negb (in_error self) then Eff.ret true
   else match repeat_after self with
        | None => Eff.ret false
        | Some d => interval_elapsed now d
        end)%eff.

(** An awaited call of the outside: its answer, or what it raises. *)
Definition await {A} (answer : string + A) : Method A :=
  match answer with
  | inl what => Eff.raise (Raised what)
  | inr a => Eff.ret a
  end.

(** [self.set(msg)], as [do] writes it: without [await].  [set] is a
    coroutine function of the bus library, so the call makes a coroutine
    and drops it; its body, which would send the message, never runs.
    Nothing is sent and nothing can be raised here. *)
Definition set (message : string) : Method unit := Eff.ret tt.

(** The body of the [try] of [do]. *)
Definition do_body (tick : Tick) : Method unit :=
  (failing <- await (in_error_async tick) ;;
   if (failing : bool) then
     due <- announce_due (now_at_check tick) ;;
     if (due : bool) then
       fault <- await (get_last_fault_async tick) ;;
       set (msg fault) ;;
       Eff.modify (fun self => with_in_error self true) ;;
       Eff.modify (fun self => with_last_sent_at self (Some (now_at_send tick)))
     else Eff.ret tt
   else Eff.modify (fun self => with_in_error self false))%eff.

Definition do (tick : Tick) : Method unit :=
  Eff.try_except (do_body tick) (fun ex => Eff.emit (Log_exception ex)).

(** The object after a run of ticks, from the oldest on. *)
Fixpoint run (self : HtFaultNotification) (ticks : list Tick) : HtFaultNotification :=
  match ticks with
  | [] => self
  | tick :: rest => run (Eff.final (do tick self)) rest
  end.

(** The tick met [last_sent_at = None] in the elapsed-time comparison: the
    calls of the outside raise [Raised _], so a logged [TypeError] is the
    comparison's. *)
Definition fails_on_missing_timestamp
    (r : (Exn + unit) * HtFaultNotification * list Event) : bool :=
  existsb (fun e => match e with Log_exception TypeError => true | _ => false end)
          (Eff.trace r).

Definition emits (r : (Exn + unit) * HtFaultNotification * list Event) : bool :=
  existsb is_notify (Eff.trace r).

Definition logs_exception (r : (Exn + unit) * HtFaultNotification * list Event) : bool :=
  existsb is_log_exception (Eff.trace r).

(** The invariant of the two fields: an object in error carries the
    time of its last announcement. *)
Definition timestamped (self : HtFaultNotification) : bool :=
  negb (in_error self)
  || match last_sent_at self with Some _ => true | None => false end.

Definition hour : timedelta := 3600 * 1000000.
Definition minute : timedelta := 60 * 1000000.

Definition a_fault : Fault := mkFault 28 20 0 "HD Fehler".

(** A tick on which the heat pump reports a fault and every call succeeds. *)
Definition failing_tick (now : datetime) : Tick :=
  mkTick (inr true) now (inr a_fault) now.

End HtFaultNotification.

(** ** config_validation.py *)

Module ConfigValidation.

(** *** The string builtins the validators call

    A [string] is read as a Python [str] over the code points below 256. *)

Definition code (c : ascii) : Z := Z.of_N (N_of_ascii c).

(** [c.isspace()]: the characters [str.strip()] removes. *)
Definition is_space (c : ascii) : bool :=
  let n := code c in
  ((9 <=? n) && (n <=? 13)) || ((28 <=? n) && (n <=? 32))
  || (n =? 133) || (n =? 160).

Definition is_digit (c : ascii) : bool :=
  let n := code c in (48 <=? n) && (n <=? 57).

Definition digit_value (c : ascii) : Z := code c - 48.

Fixpoint lstrip (s : string) : string :=
  match s with
  | EmptyString => EmptyString
  | String c r => if is_space c then lstrip r else s
  end.

Fixpoint rstrip (s : string) : string :=
  match s with
  | EmptyString => EmptyString
  | String c r =>
      match rstrip r with
      | EmptyString => if is_space c then EmptyString else String c EmptyString
      | r' => String c r'
      end
  end.

(** [s.strip()]. *)
Definition strip (s : string) : string := rstrip (lstrip s).

(** The characters [int()] and [float()] skip at both ends of a text: the
    blanks of ASCII, the next-line control and the no-break space; not the
    four separator controls 28 to 31, which [isspace] takes. *)
Definition is_blank (c : ascii) : bool :=
  let n := code c in
  ((9 <=? n) && (n <=? 13)) || (n =? 32) || (n =? 133) || (n =? 160).

Fixpoint skip_blanks (s : string) : string :=
  match s with
  | EmptyString => EmptyString
  | String c r => if is_blank c then skip_blanks r else s
  end.

Fixpoint drop_blanks (s : string) : string :=
  match s with
  | EmptyString => EmptyString
  | String c r =>
      match drop_blanks r with
      | EmptyString => if is_blank c then EmptyString else String c EmptyString
      | r' => String c r'
      end
  end.

(** A text without the blanks at its ends. *)
Definition trim (s : string) : string := drop_blanks (skip_blanks s).

(** [c.lower()]: A-Z, and the capital letters of Latin-1. *)
Definition lower_char (c : ascii) : ascii :=
  let n := code c in
  if ((65 <=? n) && (n <=? 90))
     || ((192 <=? n) && (n <=? 222) && negb (n =? 215))
  then ascii_of_N (Z.to_N (n + 32)) else c.

(** [s.lower()]. *)
Fixpoint lower (s : string) : string :=
  match s with
  | EmptyString => EmptyString
  | String c r => String (lower_char c) (lower r)
  end.

(** [s.startswith(c)] for a one-character prefix. *)
Definition startswith (s : string) (c : ascii) : bool :=
  match s with
  | String d _ => Ascii.eqb d c
  | EmptyString => false
  end.

(** [s[1:]]. *)
Definition tail (s : string) : string :=
  match s with
  | String _ r => r
  | EmptyString => EmptyString
  end.

(** [s.split(sep)] for a one-character separator. *)
Fixpoint split (sep : ascii) (s : string) : list string :=
  match s with
  | EmptyString => [EmptyString]
  | String c r =>
      if Ascii.eqb c sep then EmptyString :: split sep r
      else match split sep r with
           | field :: fields => String c field :: fields
           | [] => [String c EmptyString]
           end
  end.

(** The digits of an [int] literal after the first: digits, each
    optionally preceded by one underscore. *)
Fixpoint more_digits (acc : Z) (s : string) : option Z :=
  match s with
  | EmptyString => Some acc
  | String c r =>
      if is_digit c then more_digits (10 * acc + digit_value c) r
      else if Ascii.eqb c "_"%char then
        match r with
        | String d r' =>
            if is_digit d then more_digits (10 * acc + digit_value d) r'
            else None
        | EmptyString => None
        end
      else None
  end.

Definition unsigned_literal (s : string) : option Z :=
  match s with
  | String c r => if is_digit c then more_digits (digit_value c) r else None
  | EmptyString => None
  end.

(** [int(s)] for a [str]: [None] stands for [ValueError]. *)
Definition py_int (s : string) : option Z :=
  let t := trim s in
  if startswith t "-"%char then option_map Z.opp (unsigned_literal (tail t))
  else if startswith t "+"%char then unsigned_literal (tail t)
  else unsigned_literal t.

(** *** Durations

    A [timedelta] is a whole number of microseconds whose days lie within
    999999999 of zero; outside, its constructor and its arithmetic raise
    [OverflowError]. *)

Definition timedelta : Type := Z.

Definition us_per_second : Z := 1000000.
Definition us_per_minute : Z := 60 * us_per_second.
Definition us_per_hour : Z := 3600 * us_per_second.
Definition us_per_day : Z := 86400 * us_per_second.

Definition timedelta_in_range (us : Z) : bool :=
  (- 999999999 * us_per_day <=? us) && (us <? 1000000000 * us_per_day).

(** The configuration value handed to a validator. *)
Inductive PyArg : Type :=
| ArgBool (b : bool)
| ArgInt (z : Z)
| ArgStr (s : string)
| ArgNone.

Inductive Message : Type :=
| Wrap_in_quotes
| Time_period_error (value : PyArg)
| Invalid_boolean (value : PyArg).

Inductive VExn : Type :=
| Invalid (message : Message)
| OverflowError
| ValueError.


(** What [float(s)] followed by [timedelta(seconds=...)] makes of a
    field. *)
Inductive Seconds : Type :=
| Not_a_number           (* [float] raises [ValueError] *)
| Seconds_nan            (* [timedelta] raises [ValueError] *)
| Seconds_inf            (* [timedelta] raises [OverflowError] *)
| Seconds_us (us : Z).   (* the field's microseconds *)

Section TimePeriod.
(** Fractions, exponents, [inf] and [nan] go through binary floating
    point and [timedelta]'s rounding to whole microseconds: the reader of
    such a field is a parameter here, and [float_seconds] below is the one
    of Python. *)
Variable float_field : string -> Seconds.

(** [float(s)] as [timedelta] takes it.  A literal [int] reads is read
    by [float] to the same whole number, exactly up to 2^53. *)
Definition seconds_field (s : string) : Seconds :=
  match py_int s with
  | Some n => if Z.abs n <=? 2 ^ 53 then Seconds_us (n * us_per_second)
              else float_field s
  | None => float_field s
  end.

(** [timedelta(hours=hour, minutes=minute, seconds=second)]. *)
Definition make_timedelta (hour minute : Z) (second : Seconds) : VExn + timedelta :=
  match second with
  | Not_a_number => inl ValueError
  | Seconds_nan => inl ValueError
  | Seconds_inf => inl OverflowError
  | Seconds_us us =>
      let total := hour * us_per_hour + minute * us_per_minute + us in
      if timedelta_in_range total then inr total else inl OverflowError
  end.

(** [offset * -1]. *)
Definition negate (offset : timedelta) : VExn + timedelta :=
  if timedelta_in_range (- offset) then inr (- offset) else inl OverflowError.

Definition time_period_str (value : PyArg) : VExn + timedelta :=
  match value with
  | ArgBool _ | ArgInt _ => inl (Invalid Wrap_in_quotes)
  | ArgNone => inl (Invalid (Time_period_error value))
  | ArgStr text =>
      let negative_offset := startswith text "-"%char in
      let text :=
        if startswith text "-"%char then tail text
        else if startswith text "+"%char then tail text
        else text in
      let parsed := split ":"%char text in
      let failure : VExn + timedelta := inl (Invalid (Time_period_error (ArgStr text))) in
      if negb ((List.length parsed =? 2)%nat || (List.length parsed =? 3)%nat) then failure
      else
        match py_int (nth 0 parsed EmptyString) with
        | None => failure
        | Some hour =>
            match py_int (nth 1 parsed EmptyString) with
            | None => failure
            | Some minute =>
                let second :=
                  match nth_error parsed 2 with
                  | Some field => seconds_field field
                  | None => Seconds_us 0
                  end in
                match second with
                | Not_a_number => failure
                | _ =>
                    match make_timedelta hour minute second with
                    | inl ex => inl ex
                    | inr offset =>
                        if negative_offset then negate offset else inr offset
                    end
                end
            end
        end
  end.
End TimePeriod.

(** *** The duration strings of the specification

    [[-+]HH:MM[:SS[.ffffff]]]: an optional sign, then two or three fields
    of decimal digits, the third with an optional fraction. *)

Fixpoint all_digits (s : string) : bool :=
  match s with
  | EmptyString => true
  | String c r => is_digit c && all_digits r
  end.

(** A non-empty run of decimal digits. *)
Definition is_number (s : string) : bool :=
  match s with
  | EmptyString => false
  | String _ _ => all_digits s
  end.

(** The number a run of digits writes. *)
Fixpoint decimal_from (acc : Z) (s : string) : Z :=
  match s with
  | EmptyString => acc
  | String c r => decimal_from (10 * acc + digit_value c) r
  end.

Definition decimal (s : string) : Z := decimal_from 0 s.




(** [c in s]. *)
Fixpoint contains (c : ascii) (s : string) : bool :=
  match s with
  | EmptyString => false
  | String d r => Ascii.eqb d c || contains c r
  end.





(** The text after its sign, if it has one. *)
Definition without_sign (text : string) : string :=
  if startswith text "-"%char then tail text
  else if startswith text "+"%char then tail text
  else text.

(** *** Booleans *)

Definition true_tokens : list string := ["1"; "true"; "yes"; "on"; "enable"].
Definition false_tokens : list string := ["0"; "false"; "no"; "off"; "disable"].

(** [value in tokens]. *)
Definition member (value : string) (tokens : list string) : bool :=
  existsb (String.eqb value) tokens.

Definition boolean (value : PyArg) : VExn + bool :=
  match value with
  | ArgBool b => inr b
  | ArgStr text =>
      let text := strip (lower text) in
      if member text true_tokens then inr true
      else if member text false_tokens then inr false
      else inl (Invalid (Invalid_boolean (ArgStr text)))
  | ArgInt z => inr (negb (z =? 0))
  | ArgNone => inl (Invalid (Invalid_boolean value))
  end.

(** *** [float] of a text

    [float(s)] reads a decimal literal, with or without a point and an
    exponent, and the words [inf], [infinity] and [nan]; it gives the float
    nearest to the decimal number written. *)






(** *** [timedelta] of a float of seconds

    The constructor splits the seconds into whole seconds and a fraction,
    the fraction times a million into whole microseconds and a leftover,
    and rounds the leftover, half to even. *)







(** *** The seconds of a clock, with a fraction down to the millisecond *)








End ConfigValidation.

(** ** htdatapoint.py: construction and runs *)

Module HtDataPointLife.
Import HtDataPoint.

(** The configuration of a device: a [dict] with [str] keys. *)
Definition Config : Type := list (string * PyVal).

(** [config.get(key)]: [None] for a key the record does not have. *)
Fixpoint get (config : Config) (key : string) : option PyVal :=
  match config with
  | [] => None
  | (k, v) :: rest => if String.eqb k key then Some v else get rest key
  end.

(** [value_type == "binary"]. *)
Definition is_binary (value_type : option PyVal) : bool :=
  match value_type with
  | Some (PyStr s) => String.eqb s "binary"
  | _ => false
  end.

(** The two constructors of the bus library that [__init__] calls, on
    whatever group address and value type it is given ([None] included):
    they answer with the group address the remote value has, if any, and
    the class it is of, or they raise. *)
Class Constructors : Type := {
  remote_value_switch : option PyVal -> Exn + option GroupAddress;
  remote_value_sensor :
    option PyVal -> option PyVal -> Exn + (option GroupAddress * RemoteValueClass)
}.

Section Life.
Context {Payload : Type} `{Transcoder Payload} `{Constructors}.

(** [__init__]: a switch for the value type ["binary"], a sensor of the
    value type otherwise; nothing cached, nothing sent yet. *)
Definition init (name : string) (group_address value_type : option PyVal)
    (writable cyclic_sending send_on_change : bool) (on_change_of : option PyVal)
  : Exn + HtDataPoint Payload :=
  let param_value : Exn + RemoteValue Payload :=
    if is_binary value_type then
      match remote_value_switch group_address with
      | inl ex => inl ex
      | inr address => inr (mkRemoteValue RemoteValueSwitch address None)
      end
    else
      match remote_value_sensor group_address value_type with
      | inl ex => inl ex
      | inr (address, class) => inr (mkRemoteValue class address None)
      end in
  match param_value with
  | inl ex => inl ex
  | inr param_value =>
      inr (mkHtDataPoint name param_value writable cyclic_sending send_on_change
             on_change_of None)
  end.

(** [from_config], on any record. *)
Definition from_config (name : string) (config : Config) : Exn + HtDataPoint Payload :=
  let group_address := get config "group_address" in
  let value_type := get config "value_type" in
  let writable := get config "writable" in
  let cyclic_sending := get config "cyclic_sending" in
  let send_on_change := get config "send_on_chnage" in
  let on_change_of := get config "on_change_of" in
  init name group_address value_type (truthy writable) (truthy cyclic_sending)
       (truthy send_on_change) on_change_of.

(** A sequence of operations on one datapoint, from the oldest on: the
    object at the end and everything logged and sent on the way.  An
    operation that raises leaves the object as it is at the raise. *)
Fixpoint run_ops (ops : list (Op Payload)) (self : HtDataPoint Payload)
  : HtDataPoint Payload * list (Event Payload) :=
  match ops with
  | [] => (self, [])
  | o :: rest =>
      let r := run_op o self in
      (fst (run_ops rest (Eff.final r)), Eff.trace r ++ snd (run_ops rest (Eff.final r)))
  end.

(** Two objects with the same configuration: everything but the cached
    payload and [last_sent_value]. *)
Definition same_configuration (a b : HtDataPoint Payload) : Prop :=
  name a = name b
  /\ rv_class (param_value a) = rv_class (param_value b)
  /\ group_address (param_value a) = group_address (param_value b)
  /\ writable a = writable b
  /\ cyclic_sending a = cyclic_sending b
  /\ send_on_change a = send_on_change b
  /\ on_change_of a = on_change_of b.
End Life.

(** *** Constructors to run examples with

    A group address is a number from 0 to 65535, or a text that writes one
    in decimal digits or as [main/middle/sub]; a sensor takes a text as its
    value type. *)
Definition plain_group_address (address : option PyVal) : Exn + option GroupAddress :=
  match address with
  | None => inr None
  | Some (PyInt z) =>
      if (0 <=? z) && (z <=? 65535) then inr (Some (Z.to_N z)) else inl CouldNotParseAddress
  | Some (PyStr s) =>
      match ConfigValidation.split "/"%char s with
      | [free] =>
          if ConfigValidation.is_number free && (ConfigValidation.decimal free <=? 65535)
          then inr (Some (Z.to_N (ConfigValidation.decimal free)))
          else inl CouldNotParseAddress
      | [main; middle; sub] =>
          if ConfigValidation.is_number main && ConfigValidation.is_number middle
             && ConfigValidation.is_number sub
             && (ConfigValidation.decimal main <=? 31)
             && (ConfigValidation.decimal middle <=? 7)
             && (ConfigValidation.decimal sub <=? 255)
          then inr (Some (Z.to_N (ConfigValidation.decimal main * 2048
                                  + ConfigValidation.decimal middle * 256
                                  + ConfigValidation.decimal sub)))
          else inl CouldNotParseAddress
      | _ => inl CouldNotParseAddress
      end
  | Some _ => inl CouldNotParseAddress
  end.

#[export] Instance plain_constructors : Constructors := {
  remote_value_switch := plain_group_address;
  remote_value_sensor := fun address value_type =>
    match value_type with
    | Some (PyStr s) =>
        match plain_group_address address with
        | inl ex => inl ex
        | inr a => inr (a, RemoteValueSensor (PyStr s))
        end
    | _ => inl ConversionError
    end
}.

(** A record that asks for sending on change, under the key as
    documented, with its group address as the validator returns it. *)
Definition a_config : Config :=
  [("group_address", PyStr "1/2/3"); ("value_type", PyStr "temperature");
   ("send_on_change", PyBool true); ("on_change_of", PyInt 2)].

End HtDataPointLife.

(** ** htfaultnotification.py: runs *)

Module HtFaultNotificationRuns.
Import HtFaultNotification.




(** A tick on which the heat pump reports no fault. *)
Definition clear_tick (now : datetime) : Tick :=
  mkTick (inr false) now (inl "no fault") now.

End HtFaultNotificationRuns.

(** ** config_validation.py: the other validators *)

Module Validators.
Import ConfigValidation.

(** A configuration value: a scalar, a list or a [dict] with [str] keys. *)
#[local] Set Warnings "-register-all".
Inductive PyObj : Type :=
| Scalar (a : PyArg)
| PyList (items : list PyObj)
| PyDict (entries : list (string * PyObj)).

(** Why a validator refuses a value. *)
Inductive Reason : Type :=
| Said (message : Message)
| Expected_dictionary
| Must_contain (keys : list string)
| Expected_seconds (value : PyArg)
| Should_be_positive
| String_is_none
| Should_be_a_string
| Not_a_group_address (text : string)
| Not_a_physical_address (text : string)
| Not_a_valid_value
| Expected_int
| Out_of_range
| Expected_timedelta
| Expected_dict
| No_valid_value.

(** How a validator fails: it raises [vol.Invalid], or lets an
    [OverflowError] or a [ValueError] out. *)
Inductive Failure : Type :=
| Refused (why : Reason)
| Overflow_error
| Value_error.

Definition is_refused {A} (r : Failure + A) : bool :=
  match r with inl (Refused _) => true | _ => false end.

(** A result of [time_period_str] as a result of a validator. *)
Definition raised {A} (r : VExn + A) : Failure + A :=
  match r with
  | inr a => inr a
  | inl (Invalid message) => inl (Refused (Said message))
  | inl OverflowError => inl Overflow_error
  | inl ValueError => inl Value_error
  end.

(** *** The builtins [str] and [isdigit] *)

(** [str(n)] for an [int]. *)
Definition int_text (z : Z) : string := NilZero.string_of_int (Z.to_int z).

(** [str(value)]. *)
Definition py_str (value : PyArg) : string :=
  match value with
  | ArgBool true => "True"
  | ArgBool false => "False"
  | ArgInt z => int_text z
  | ArgStr s => s
  | ArgNone => "None"
  end.

(** Superscript two, three and one: digits to [isdigit], not to [int]. *)
Definition is_superscript (c : ascii) : bool :=
  let n := code c in (n =? 178) || (n =? 179) || (n =? 185).

Fixpoint all_isdigit (s : string) : bool :=
  match s with
  | EmptyString => true
  | String c r => (is_digit c || is_superscript c) && all_isdigit r
  end.

(** [s.isdigit()]. *)
Definition py_isdigit (s : string) : bool :=
  match s with
  | EmptyString => false
  | String _ _ => all_isdigit s
  end.

(** *** The combinators of the schema library, as the validators use them *)

(** A validator inside a schema: a [ValueError] it lets out counts as a
    refusal. *)
Definition compiled {A B} (f : A -> Failure + B) (v : A) : Failure + B :=
  match f v with
  | inl Value_error => inl (Refused Not_a_valid_value)
  | r => r
  end.

(** [vol.Any]: the first alternative that does not refuse; when all
    refuse, the refusal of the first. *)
Fixpoint vol_any {A B} (alternatives : list (A -> Failure + B)) (v : A) : Failure + B :=
  match alternatives with
  | [] => inl (Refused No_valid_value)
  | f :: rest =>
      match compiled f v with
      | inl (Refused why) =>
          match vol_any rest v with
          | inl (Refused _) => inl (Refused why)
          | r => r
          end
      | r => r
      end
  end.

(** [vol.All] of two validators: the second on the result of the first. *)
Definition vol_all {A B C} (f : A -> Failure + B) (g : B -> Failure + C) (v : A)
  : Failure + C :=
  match compiled f v with
  | inl e => inl e
  | inr b => compiled g b
  end.

(** [int(value)]: [None] stands for [ValueError] and [TypeError]. *)
Definition py_int_of (value : PyArg) : option Z :=
  match value with
  | ArgBool true => Some 1
  | ArgBool false => Some 0
  | ArgInt z => Some z
  | ArgStr s => py_int s
  | ArgNone => None
  end.

(** [vol.Coerce(int)]. *)
Definition coerce_int (value : PyArg) : Failure + Z :=
  match py_int_of value with
  | Some z => inr z
  | None => inl (Refused Expected_int)
  end.

(** [vol.Range(min=lo, max=hi)]. *)
Definition range (lo hi : Z) (v : Z) : Failure + Z :=
  if negb (lo <=? v) then inl (Refused Out_of_range)
  else if negb (v <=? hi) then inl (Refused Out_of_range)
  else inr v.

(** *** The validators *)

Definition port : PyArg -> Failure + Z := vol_all coerce_int (range 1 65535).

(** The loop of [validate]: [for k in obj: if k in keys: return obj]. *)
Fixpoint some_key_known (keys : list string) (entries : list (string * PyObj)) : bool :=
  match entries with
  | [] => false
  | (k, _) :: rest => if member k keys then true else some_key_known keys rest
  end.

Definition has_at_least_one_key (keys : list string) (obj : PyObj) : Failure + PyObj :=
  match obj with
  | PyDict entries =>
      if some_key_known keys entries then inr obj
      else inl (Refused (Must_contain keys))
  | _ => inl (Refused Expected_dictionary)
  end.

Section Periods.
Variable float_field : string -> Seconds.

(** [timedelta(seconds=float(value))] inside its [try]: a [ValueError] or
    [TypeError] of either call is refused, an [OverflowError] gets out.  An
    [int] beyond 2^53 in magnitude is beyond the range of [timedelta] as a
    [float], too. *)
Definition time_period_seconds (value : PyArg) : Failure + timedelta :=
  let seconds :=
    match value with
    | ArgBool true => Seconds_us us_per_second
    | ArgBool false => Seconds_us 0
    | ArgInt z => Seconds_us (z * us_per_second)
    | ArgStr s => seconds_field float_field s
    | ArgNone => Not_a_number
    end in
  match seconds with
  | Not_a_number => inl (Refused (Expected_seconds value))
  | Seconds_nan => inl (Refused (Expected_seconds value))
  | Seconds_inf => inl Overflow_error
  | Seconds_us us =>
      if timedelta_in_range us then inr us else inl Overflow_error
  end.

(** The last two alternatives of [time_period], on a scalar: it is no
    [timedelta] and no [dict]. *)
Definition is_timedelta (value : PyArg) : Failure + timedelta :=
  inl (Refused Expected_timedelta).

Definition time_period_dict (value : PyArg) : Failure + timedelta :=
  inl (Refused Expected_dict).

(** [time_period], on the scalars. *)
Definition time_period : PyArg -> Failure + timedelta :=
  vol_any [fun value => raised (time_period_str float_field value);
           time_period_seconds; is_timedelta; time_period_dict].

Definition positive_timedelta (value : timedelta) : Failure + timedelta :=
  if value <? 0 then inl (Refused Should_be_positive) else inr value.

Definition time_interval : PyArg -> Failure + timedelta :=
  vol_all time_period positive_timedelta.
End Periods.

Definition ensure_list (value : PyObj) : list PyObj :=
  match value with
  | Scalar ArgNone => []
  | PyList items => items
  | _ => [value]
  end.

(** *** Regular expressions, as the two address patterns use them *)

Inductive Regex : Type :=
| Never
| Empty
| Class (p : ascii -> bool)
| Seq (a b : Regex)
| Alt (a b : Regex).

Fixpoint nullable (r : Regex) : bool :=
  match r with
  | Never => false
  | Empty => true
  | Class _ => false
  | Seq a b => nullable a && nullable b
  | Alt a b => nullable a || nullable b
  end.

(** What is left of [r] after the character [c]. *)
Fixpoint derive (c : ascii) (r : Regex) : Regex :=
  match r with
  | Never => Never
  | Empty => Never
  | Class p => if p c then Empty else Never
  | Seq a b =>
      if nullable a then Alt (Seq (derive c a) b) (derive c b)
      else Seq (derive c a) b
  | Alt a b => Alt (derive c a) (derive c b)
  end.

(** [r] matches the whole of [s]. *)
Fixpoint matches (r : Regex) (s : string) : bool :=
  match s with
  | EmptyString => nullable r
  | String c rest => matches (derive c r) rest
  end.

(** [\d], a literal character, [r?], [r{lo,hi}] and a final [$]: the end
    of the text, or a line feed that ends it. *)
Definition digit : Regex := Class is_digit.
Definition chr (c : ascii) : Regex := Class (Ascii.eqb c).
Definition opt (r : Regex) : Regex := Alt r Empty.

Fixpoint at_most (n : nat) (r : Regex) : Regex :=
  match n with
  | O => Empty
  | S n' => opt (Seq r (at_most n' r))
  end.

Fixpoint between (lo hi : nat) (r : Regex) : Regex :=
  match lo with
  | O => at_most hi r
  | S lo' => Seq r (between lo' (Nat.pred hi) r)
  end.

Definition line_feed : ascii := ascii_of_N 10.
Definition dollar : Regex := opt (chr line_feed).

(** [pattern.match(s)] for a pattern that starts with [^] and ends with
    [$]. *)
Definition re_match (pattern : Regex) (s : string) : bool :=
  matches (Seq pattern dollar) s.

Definition KNX_GA_MAX_FREE : Z := 65535.

(** [^(?P<main>\d{1,2})(/(?P<middle>\d{1,2}))?/(?P<sub>\d{1,4})$] *)
Definition KNX_GA_REGEX : Regex :=
  Seq (between 1 2 digit)
      (Seq (opt (Seq (chr "/") (between 1 2 digit)))
           (Seq (chr "/") (between 1 4 digit))).

(** [^(?P<area>\d{1,2})\.(?P<main>\d{1,2})\.(?P<line>\d{1,3})$] *)
Definition KNX_PA_REGEX : Regex :=
  Seq (between 1 2 digit)
      (Seq (chr ".")
           (Seq (between 1 2 digit)
                (Seq (chr ".") (between 1 3 digit)))).

Definition ensure_group_address (value : PyArg) : Failure + string :=
  let value := py_str value in
  if py_isdigit value then
    match py_int value with
    | None => inl Value_error
    | Some n =>
        if (0 <=? n) && (n <=? KNX_GA_MAX_FREE) then inr value
        else if negb (re_match KNX_GA_REGEX value)
             then inl (Refused (Not_a_group_address value))
             else inr value
    end
  else if negb (re_match KNX_GA_REGEX value)
       then inl (Refused (Not_a_group_address value))
       else inr value.

Definition ensure_physical_address (value : PyArg) : Failure + string :=
  let value := py_str value in
  if negb (re_match KNX_PA_REGEX value)
  then inl (Refused (Not_a_physical_address value))
  else inr value.

(** *** The address texts, spelled out *)

(** A run of [lo] to [hi] decimal digits. *)
Definition digits_between (lo hi : nat) (s : string) : bool :=
  all_digits s && (lo <=? String.length s)%nat && (String.length s <=? hi)%nat.

Definition end_of_text (line_fed : bool) : string :=
  if line_fed then String line_feed EmptyString else EmptyString.

(** [main/sub] or [main/middle/sub]. *)
Definition group_address_text (main : string) (middle : option string) (sub : string)
    (line_fed : bool) : string :=
  (main ++ match middle with Some m => "/" ++ m | None => "" end
        ++ "/" ++ sub ++ end_of_text line_fed)%string.

(** [area.main.line]. *)
Definition physical_address_text (area main line : string) (line_fed : bool) : string :=
  (area ++ "." ++ main ++ "." ++ line ++ end_of_text line_fed)%string.

Definition string (value : PyObj) : Failure + string :=
  match value with
  | Scalar ArgNone => inl (Refused String_is_none)
  | PyList _ | PyDict _ => inl (Refused Should_be_a_string)
  | Scalar a => inr (py_str a)
  end.

End Validators.

(** * Properties *)

(** ** The datapoint *)

Module HtDataPointFacts.
Import HtDataPoint.

Section Facts.
Context {Payload : Type} `{Transcoder Payload}.

(** Unfold a method down to the state it is run on. *)
Ltac run_method :=
  cbv [set broadcast_value process_group_write process_group_read
       param_value_process param_value_set send_and_record cache_only differs
       and_then lift assign_payload
       Eff.bind Eff.get Eff.ret Eff.raise Eff.modify Eff.emit].

(** [set], run: every way it ends. *)
Lemma set_run (v : PyVal) (self : HtDataPoint Payload) :
  set (Some v) self =
    match value self with
    | inl ex => (inl ex, self, [])
    | inr cached =>
        if py_ne_opt v cached then
          match (if send_on_change self
                 then (if is_switch (rv_class (param_value self)) then inr true
                       else change_is_due self v)
                 else inr false) with
          | inl ex => (inl ex, self, [])
          | inr true =>
              match group_address (param_value self) with
              | None => (inr tt, with_last_sent_value self (Some v), [])
              | Some address =>
                  match param_to_knx self v with
                  | inl ex => (inl ex, self, [])
                  | inr p =>
                      (inr tt, with_last_sent_value self (Some v),
                       [Bus_send address p false])
                  end
              end
          | inr false =>
              match param_to_knx self v with
              | inl ex => (inl ex, self, [])
              | inr p => (inr tt, with_payload self (Some p), [])
              end
          end
        else (inr tt, self, [])
    end.
Proof.
  run_method.
  destruct (rv_class (param_value self)) eqn:Hclass; cbn [is_switch is_sensor];
    destruct (value self) as [ex | cached]; try reflexivity;
    destruct (py_ne_opt v cached); try reflexivity;
    destruct (send_on_change self); cbn [app];
    try (destruct (change_is_due self v) as [ex | [|]]; cbn [app]);
    try reflexivity;
    try (destruct (group_address (param_value self)); cbn [app]);
    try reflexivity;
    destruct (param_to_knx self v); reflexivity.
Qed.

(** A group write, run: every way it ends. *)
Lemma process_group_write_run (telegram : Telegram Payload) (self : HtDataPoint Payload) :
  process_group_write telegram self =
    match group_address (param_value self) with
    | None => (inr tt, self, [Info_group_write telegram])
    | Some address =>
        if negb (N.eqb (destination_address telegram) address)
        then (inr tt, self, [Info_group_write telegram])
        else if negb (payload_valid (rv_class (param_value self)) (telegram_payload telegram))
        then (inl CouldNotParseTelegram, self, [Info_group_write telegram])
        else
          match from_knx (rv_class (param_value self)) (telegram_payload telegram) with
          | inl ex =>
              (inl ex, with_payload self (Some (telegram_payload telegram)),
               [Info_group_write telegram])
          | inr v =>
              if negb (writable self)
              then (inr tt, with_payload self (Some (telegram_payload telegram)),
                    [Info_group_write telegram; Warning_non_writable (name self) (Some v)])
              else
                match to_knx (rv_class (param_value self)) v with
                | inl ex =>
                    (inl ex, with_payload self (Some (telegram_payload telegram)),
                     [Info_group_write telegram;
                      Info_set_param_async (name self) (Some v)])
                | inr p =>
                    (inr tt, with_payload self (Some p),
                     [Info_group_write telegram;
                      Info_set_param_async (name self) (Some v)])
                end
          end
    end.
Proof.
  run_method.
  destruct (group_address (param_value self)) as [address |]; [| reflexivity].
  destruct (negb (N.eqb (destination_address telegram) address)); [reflexivity |].
  destruct (negb (payload_valid _ _)); [reflexivity |].
  unfold value, param_to_knx. cbn.
  destruct (from_knx _ _) as [ex | v]; [reflexivity |].
  destruct (writable self); cbn; [| reflexivity].
  destruct (to_knx _ v); reflexivity.
Qed.

(** A group write on a telegram the remote value takes. *)
Lemma process_group_write_accepted (telegram : Telegram Payload)
    (self : HtDataPoint Payload) :
  accepts self telegram = true ->
  process_group_write telegram self =
    match from_knx (rv_class (param_value self)) (telegram_payload telegram) with
    | inl ex =>
        (inl ex, with_payload self (Some (telegram_payload telegram)),
         [Info_group_write telegram])
    | inr v =>
        if negb (writable self)
        then (inr tt, with_payload self (Some (telegram_payload telegram)),
              [Info_group_write telegram; Warning_non_writable (name self) (Some v)])
        else
          match to_knx (rv_class (param_value self)) v with
          | inl ex =>
              (inl ex, with_payload self (Some (telegram_payload telegram)),
               [Info_group_write telegram; Info_set_param_async (name self) (Some v)])
          | inr p =>
              (inr tt, with_payload self (Some p),
               [Info_group_write telegram; Info_set_param_async (name self) (Some v)])
          end
    end.
Proof.
  unfold accepts. intros Hacc. rewrite process_group_write_run.
  destruct (group_address (param_value self)) as [address |]; [| discriminate Hacc].
  apply andb_prop in Hacc as [Haddr Hvalid]. rewrite Haddr, Hvalid. reflexivity.
Qed.

(** A group write on any other telegram: only the log line of the call,
    and the object as it was. *)
Lemma process_group_write_refused (telegram : Telegram Payload)
    (self : HtDataPoint Payload) :
  accepts self telegram = false ->
  process_group_write telegram self = (inr tt, self, [Info_group_write telegram])
  \/ process_group_write telegram self
     = (inl CouldNotParseTelegram, self, [Info_group_write telegram]).
Proof.
  unfold accepts. intros Hacc. rewrite process_group_write_run.
  destruct (group_address (param_value self)) as [address |]; [| left; reflexivity].
  destruct (N.eqb (destination_address telegram) address); cbn [negb andb] in *.
  - rewrite Hacc. right. reflexivity.
  - left. reflexivity.
Qed.

(** The broadcast, run: with [response] or cyclic sending it reads the
    value and sends the stand-in. *)
Lemma broadcast_value_run (response : bool) (self : HtDataPoint Payload) :
  broadcast_value response self =
    if response || cyclic_sending self then
      match value self with
      | inl ex => (inl ex, self, [])
      | inr _ =>
          match group_address (param_value self) with
          | None => (inr tt, self, [])
          | Some address =>
              match param_to_knx self (stand_in self) with
              | inl ex => (inl ex, self, [])
              | inr p => (inr tt, self, [Bus_send address p response])
              end
          end
      end
    else (inr tt, self, []).
Proof.
  run_method.
  destruct (response || cyclic_sending self); [| reflexivity].
  destruct (value self); [reflexivity |].
  destruct (group_address (param_value self)); [| reflexivity].
  destruct (param_to_knx self (stand_in self)); reflexivity.
Qed.

Lemma process_group_read_run (telegram : Telegram Payload) (self : HtDataPoint Payload) :
  process_group_read telegram self =
    match value self with
    | inl ex => (inl ex, self, [Info_group_read telegram])
    | inr _ =>
        match group_address (param_value self) with
        | None => (inr tt, self, [Info_group_read telegram])
        | Some address =>
            match param_to_knx self (stand_in self) with
            | inl ex => (inl ex, self, [Info_group_read telegram])
            | inr p => (inr tt, self, [Info_group_read telegram; Bus_send address p true])
            end
        end
    end.
Proof.
  unfold process_group_read. unfold Eff.bind at 1. unfold Eff.emit.
  rewrite broadcast_value_run. cbn [orb].
  destruct (value self); [reflexivity |].
  destruct (group_address (param_value self)); [| reflexivity].
  destruct (param_to_knx self (stand_in self)); reflexivity.
Qed.

(** A group write never touches [last_sent_value] and never sends. *)
Lemma process_group_write_frame (telegram : Telegram Payload) (self : HtDataPoint Payload) :
  last_sent_value (Eff.final (process_group_write telegram self)) = last_sent_value self
  /\ transmits (process_group_write telegram self) = false.
Proof.
  rewrite process_group_write_run.
  destruct (group_address (param_value self)); [| split; reflexivity].
  destruct (negb (N.eqb _ _)); [split; reflexivity |].
  destruct (negb (payload_valid _ _)); [split; reflexivity |].
  destruct (from_knx _ _) as [ex | v]; [split; reflexivity |].
  destruct (negb (writable self)); [split; reflexivity |].
  destruct (to_knx _ v); split; reflexivity.
Qed.

(** A broadcast, and so a group read, keeps every field. *)
Lemma broadcast_keeps_self (response : bool) (self : HtDataPoint Payload) :
  Eff.final (broadcast_value response self) = self.
Proof.
  rewrite broadcast_value_run.
  destruct (response || cyclic_sending self); [| reflexivity].
  destruct (value self); [reflexivity |].
  destruct (group_address (param_value self)); [| reflexivity].
  destruct (param_to_knx self (stand_in self)); reflexivity.
Qed.

Lemma process_group_read_keeps_self (telegram : Telegram Payload)
    (self : HtDataPoint Payload) :
  Eff.final (process_group_read telegram self) = self.
Proof.
  rewrite process_group_read_run.
  destruct (value self); [reflexivity |].
  destruct (group_address (param_value self)); [| reflexivity].
  destruct (param_to_knx self (stand_in self)); reflexivity.
Qed.
End Facts.

(** C1.  The broadcast does not transmit the value it read: with [response]
    set, a sensor with no cached value (its underlying value is [None])
    still sends a telegram, carrying 123, and a sensor caching 21 sends 123
    as well; a switch caching [False] sends [True]. *)
Theorem broadcast_value_sends_stand_in :
  (value (sensor None false None None) = inr None
   /\ Eff.trace (broadcast_value true (sensor None false None None))
      = [Bus_send 7%N (DPTArray (Int 123)) true])
  /\ (value (sensor (Some 21) false None None) = inr (Some (PyInt 21))
      /\ Eff.trace (broadcast_value true (sensor (Some 21) false None None))
         = [Bus_send 7%N (DPTArray (Int 123)) true])
  /\ (value (switch (Some 0) false) = inr (Some (PyBool false))
      /\ Eff.trace (broadcast_value true (switch (Some 0) false))
         = [Bus_send 9%N (DPTBinary 1) true]).
Proof. repeat split. Qed.

(** C2, amended.  Take a sensor with a group address and send-on-change,
    whose cached value decodes and differs from [v], and let [due] be what
    the threshold test computes.  The test holds exactly when
    [on_change_of] is unset, or no transmission is recorded, or
    [abs(v - last_sent_value) >= abs(on_change_of)] as Python computes the
    three; on [int]s that is the comparison of the absolute values in the
    integers.  If the remote value encodes [v]: when the test holds, [set(v)]
    sends [v] once, records it as [last_sent_value] and leaves the cache as
    it is; when it does not hold, [set(v)] sends nothing, keeps
    [last_sent_value] and caches the encoded [v].  If the remote value does
    not encode [v], [set(v)] raises what the encoder raises and changes
    nothing. *)
Theorem set_sensor_threshold {Payload : Type} `{Transcoder Payload}
    (self : HtDataPoint Payload) (v : PyVal) (address : GroupAddress)
    (cached : option PyVal) (due : bool) :
  is_sensor (rv_class (param_value self)) = true ->
  send_on_change self = true ->
  group_address (param_value self) = Some address ->
  value self = inr cached ->
  py_ne_opt v cached = true ->
  change_is_due self v = inr due ->
  (due = true <->
     (on_change_of self = None \/ last_sent_value self = None \/
      exists d l difference delta threshold,
        on_change_of self = Some d /\ last_sent_value self = Some l
        /\ py_sub v l = inr difference /\ py_abs difference = inr delta
        /\ py_abs d = inr threshold /\ py_ge delta threshold = inr true))
  /\ (forall z l d, v = PyInt z -> last_sent_value self = Some (PyInt l) ->
        on_change_of self = Some (PyInt d) -> due = (Z.abs d <=? Z.abs (z - l)))
  /\ (forall p, param_to_knx self v = inr p ->
        (due = true ->
         set (Some v) self
         = (inr tt, with_last_sent_value self (Some v), [Bus_send address p false]))
        /\ (due = false ->
            set (Some v) self = (inr tt, with_payload self (Some p), [])))
  /\ (forall ex, param_to_knx self v = inl ex ->
        set (Some v) self = (inl ex, self, [])).
Proof.
  intros Hsensor Hsend Haddr Hvalue Hne Hdue.
  assert (Hswitch : is_switch (rv_class (param_value self)) = false)
    by (destruct (rv_class (param_value self)); [discriminate Hsensor | reflexivity]).
  split; [| split; [| split]].
  - unfold change_is_due in Hdue.
    destruct (on_change_of self) as [d |] eqn:Hd.
    + destruct (last_sent_value self) as [l |] eqn:Hl.
      * destruct (py_sub v l) as [ex | difference] eqn:Hsub; [discriminate Hdue |].
        destruct (py_abs difference) as [ex | delta] eqn:Hdelta; [discriminate Hdue |].
        destruct (py_abs d) as [ex | threshold] eqn:Hthreshold; [discriminate Hdue |].
        split.
        -- intros ->. right. right.
           exists d, l, difference, delta, threshold. repeat split; assumption.
        -- intros [Habs | [Habs | (d' & l' & difference' & delta' & threshold'
                                   & Hd' & Hl' & Hsub' & Hdelta' & Hthreshold' & Hge)]];
             try discriminate.
           injection Hd' as <-. injection Hl' as <-.
           rewrite Hsub in Hsub'. injection Hsub' as <-.
           rewrite Hdelta in Hdelta'. injection Hdelta' as <-.
           rewrite Hthreshold in Hthreshold'. injection Hthreshold' as <-.
           rewrite Hge in Hdue. injection Hdue as <-. reflexivity.
      * injection Hdue as <-. split; [intros _; right; left |]; reflexivity.
    + injection Hdue as <-. split; [intros _; left |]; reflexivity.
  - intros z l d -> Hl Hd. unfold change_is_due in Hdue.
    rewrite Hd, Hl in Hdue. cbn in Hdue.
    destruct (Z.abs (z - l) ?= Z.abs d) eqn:Hcmp; injection Hdue as <-; symmetry.
    + apply Z.leb_le. apply Z.compare_eq in Hcmp. lia.
    + apply Z.leb_gt. apply Z.compare_lt_iff in Hcmp. exact Hcmp.
    + apply Z.leb_le. apply Z.compare_gt_iff in Hcmp. lia.
  - intros p Hp. rewrite set_run, Hvalue, Hne, Hsend, Hswitch, Hdue, Haddr, Hp.
    split; intros ->; reflexivity.
  - intros ex Hex. rewrite set_run, Hvalue, Hne, Hsend, Hswitch, Hdue, Haddr, Hex.
    destruct due; reflexivity.
Qed.

(** With [on_change_of = 2] and [last_sent_value = 10]: [set(12)] transmits
    and records 12, [set(11)] only caches 11.  The same with floats: from
    10.0, [set(12.5)] transmits and [set(11.5)] does not. *)
Lemma set_sensor_threshold_witness :
  (set (Some (PyInt 12)) (sensor (Some 10) true (Some 2) (Some (PyInt 10)))
   = (inr tt,
      sensor (Some 10) true (Some 2) (Some (PyInt 12)),
      [Bus_send 7%N (DPTArray (Int 12)) false])
   /\ set (Some (PyInt 11)) (sensor (Some 10) true (Some 2) (Some (PyInt 10)))
      = (inr tt, sensor (Some 11) true (Some 2) (Some (PyInt 10)), []))
  /\ (Eff.trace (set (Some (tenths 125)) (sensor (Some 10) true (Some 2) (Some (tenths 100))))
      = [Bus_send 7%N (DPTArray (Float (float_of_decimal false 125 (-1)))) false]
      /\ Eff.trace (set (Some (tenths 115))
                        (sensor (Some 10) true (Some 2) (Some (tenths 100))))
         = []).
Proof.
  split; split.
  - exact (proj1 (proj1 (proj2 (proj2
             (@set_sensor_threshold KnxPayload plain_transcoder
                (sensor (Some 10) true (Some 2) (Some (PyInt 10))) (PyInt 12) 7%N
                (Some (PyInt 10)) true eq_refl eq_refl eq_refl eq_refl eq_refl eq_refl)))
             (DPTArray (Int 12)) eq_refl) eq_refl).
  - exact (proj2 (proj1 (proj2 (proj2
             (@set_sensor_threshold KnxPayload plain_transcoder
                (sensor (Some 10) true (Some 2) (Some (PyInt 10))) (PyInt 11) 7%N
                (Some (PyInt 10)) false eq_refl eq_refl eq_refl eq_refl eq_refl eq_refl)))
             (DPTArray (Int 11)) eq_refl) eq_refl).
  - rewrite (proj1 (proj1 (proj2 (proj2
               (@set_sensor_threshold KnxPayload plain_transcoder
                  (sensor (Some 10) true (Some 2) (Some (tenths 100))) (tenths 125) 7%N
                  (Some (PyInt 10)) true eq_refl eq_refl eq_refl eq_refl eq_refl eq_refl)))
               (DPTArray (Float (float_of_decimal false 125 (-1)))) eq_refl) eq_refl).
    reflexivity.
  - rewrite (proj2 (proj1 (proj2 (proj2
               (@set_sensor_threshold KnxPayload plain_transcoder
                  (sensor (Some 10) true (Some 2) (Some (tenths 100))) (tenths 115) 7%N
                  (Some (PyInt 10)) false eq_refl eq_refl eq_refl eq_refl eq_refl eq_refl)))
               (DPTArray (Float (float_of_decimal false 115 (-1)))) eq_refl) eq_refl).
    reflexivity.
Defined.

(** C2, as stated, fails.  A sensor at 10 with [last_sent_value = 10] and
    send-on-change is given a differing value.  With [on_change_of = -2],
    the delta of [set(11)] is 1, at least the configured threshold, yet
    nothing is transmitted.  With no threshold at all, [set(700000)] should
    transmit and record the value; the encoder refuses it, so the call
    raises, nothing is transmitted and nothing is recorded. *)
Lemma set_sensor_not_as_stated :
  (is_sensor (rv_class (param_value (sensor (Some 10) true (Some (-2)) (Some (PyInt 10))))) = true
   /\ send_on_change (sensor (Some 10) true (Some (-2)) (Some (PyInt 10))) = true
   /\ value (sensor (Some 10) true (Some (-2)) (Some (PyInt 10))) = inr (Some (PyInt 10))
   /\ py_ne (PyInt 11) (PyInt 10) = true
   /\ stated_change_is_due (sensor (Some 10) true (Some (-2)) (Some (PyInt 10))) (PyInt 11)
      = inr true
   /\ transmits (set (Some (PyInt 11)) (sensor (Some 10) true (Some (-2)) (Some (PyInt 10))))
      = false)
  /\ (on_change_of (sensor (Some 10) true None (Some (PyInt 10))) = None
      /\ py_ne (PyInt 700000) (PyInt 10) = true
      /\ set (Some (PyInt 700000)) (sensor (Some 10) true None (Some (PyInt 10)))
         = (inl ConversionError, sensor (Some 10) true None (Some (PyInt 10)), [])).
Proof. repeat split. Qed.

(** C3, amended.  A group write processed by a datapoint that is not
    writable leaves [last_sent_value] unchanged, forwards nothing and sends
    nothing.  It logs the warning exactly when the remote value accepts the
    telegram (its own group address, a payload of its class) and has a
    value for the payload; a payload it accepts and cannot decode is cached
    and the decoder's exception comes out of the call. *)
Theorem non_writable_write_is_dropped {Payload : Type} `{Transcoder Payload}
    (self : HtDataPoint Payload) (telegram : Telegram Payload) :
  writable self = false ->
  last_sent_value (Eff.final (process_group_write telegram self)) = last_sent_value self
  /\ existsb is_warning (Eff.trace (process_group_write telegram self))
     = accepts self telegram && decodes self (telegram_payload telegram)
  /\ existsb is_forward (Eff.trace (process_group_write telegram self)) = false
  /\ transmits (process_group_write telegram self) = false
  /\ (forall ex, accepts self telegram = true ->
        from_knx (rv_class (param_value self)) (telegram_payload telegram) = inl ex ->
        process_group_write telegram self
        = (inl ex, with_payload self (Some (telegram_payload telegram)),
           [Info_group_write telegram])).
Proof.
  intros Hw.
  destruct (process_group_write_frame telegram self) as [Hlast Hsend].
  split; [exact Hlast |].
  assert (Hrun : existsb is_warning (Eff.trace (process_group_write telegram self))
                 = accepts self telegram && decodes self (telegram_payload telegram)
                 /\ existsb is_forward (Eff.trace (process_group_write telegram self)) = false).
  { destruct (accepts self telegram) eqn:Hacc.
    - rewrite (process_group_write_accepted telegram self Hacc), Hw. unfold decodes.
      destruct (from_knx _ _); split; reflexivity.
    - destruct (process_group_write_refused telegram self Hacc) as [-> | ->];
        split; reflexivity. }
  destruct Hrun as [Hwarn Hforward].
  split; [exact Hwarn |]. split; [exact Hforward |]. split; [exact Hsend |].
  intros ex Hacc Hex.
  rewrite (process_group_write_accepted telegram self Hacc), Hex. reflexivity.
Qed.

(** A write of [True] to the switch, which is not writable: the warning is
    logged and [last_sent_value] stays. *)
Lemma non_writable_write_is_dropped_witness :
  last_sent_value
    (Eff.final (process_group_write (mkTelegram 9%N (DPTBinary 1)) (switch None false)))
    = None
  /\ existsb is_warning
       (Eff.trace (process_group_write (mkTelegram 9%N (DPTBinary 1)) (switch None false)))
     = true.
Proof.
  destruct (@non_writable_write_is_dropped KnxPayload plain_transcoder
              (switch None false) (mkTelegram 9%N (DPTBinary 1)) eq_refl)
    as (Hlast & Hwarn & _).
  split; [exact Hlast | exact Hwarn].
Defined.

(** C3, as stated, fails: three group writes reach a switch that is not
    writable and no warning is logged.  One is for another group address;
    one carries a payload that is not binary, which the remote value
    refuses; one carries the binary payload 5, which the remote value
    accepts and caches and then cannot decode. *)
Lemma non_writable_write_without_warning :
  writable (switch None false) = false
  /\ process_group_write (mkTelegram 8%N (DPTBinary 1)) (switch None false)
     = (inr tt, switch None false, [Info_group_write (mkTelegram 8%N (DPTBinary 1))])
  /\ process_group_write (mkTelegram 9%N (DPTArray (Int 1))) (switch None false)
     = (inl CouldNotParseTelegram, switch None false,
        [Info_group_write (mkTelegram 9%N (DPTArray (Int 1)))])
  /\ process_group_write (mkTelegram 9%N (DPTBinary 5)) (switch None false)
     = (inl CouldNotParseTelegram, switch (Some 5) false,
        [Info_group_write (mkTelegram 9%N (DPTBinary 5))]).
Proof. repeat split. Qed.

(** C4, as the code has it.  On a datapoint without a group address, with
    send-on-change, [set] of a value that differs from the cached one (and,
    on a sensor, passes the threshold test) records the value as
    [last_sent_value] although nothing is transmitted: the remote value
    returns without sending and the assignment follows the call
    unconditionally. *)
Theorem last_sent_value_moves_without_transmission {Payload : Type} `{Transcoder Payload}
    (self : HtDataPoint Payload) (v : PyVal) (cached : option PyVal) :
  group_address (param_value self) = None ->
  send_on_change self = true ->
  value self = inr cached ->
  py_ne_opt v cached = true ->
  is_switch (rv_class (param_value self)) = true \/ change_is_due self v = inr true ->
  set (Some v) self = (inr tt, with_last_sent_value self (Some v), [])
  /\ transmits (run_op (OpSet (Some v)) self) = false
  /\ last_sent_value (Eff.final (run_op (OpSet (Some v)) self)) = Some v.
Proof.
  intros Haddr Hsend Hvalue Hne Hdue.
  assert (Hrun : set (Some v) self = (inr tt, with_last_sent_value self (Some v), [])).
  { rewrite set_run, Hvalue, Hne, Hsend.
    destruct Hdue as [Hswitch | Hdue].
    - rewrite Hswitch, Haddr. reflexivity.
    - destruct (is_switch (rv_class (param_value self))); rewrite ?Hdue, Haddr; reflexivity. }
  cbn [run_op]. rewrite Hrun. repeat split.
Qed.

(** The sensor built without a group address: [set(21)] records 21 and
    sends nothing. *)
Lemma last_sent_value_moves_without_transmission_witness :
  last_sent_value unaddressed = None
  /\ set (Some (PyInt 21)) unaddressed
     = (inr tt, with_last_sent_value unaddressed (Some (PyInt 21)), []).
Proof.
  split; [reflexivity |].
  exact (proj1 (@last_sent_value_moves_without_transmission KnxPayload plain_transcoder
                  unaddressed (PyInt 21) None eq_refl eq_refl eq_refl eq_refl
                  (or_intror eq_refl))).
Defined.

(** C10.  On a group write the remote value accepts, the incoming payload
    is cached before the writable flag is read: not writable, the cache
    holds the incoming payload afterwards, whatever it decodes to.  When
    the payload decodes: not writable, the write completes and the warning
    shows the incoming value, read back from the cache; writable, the
    forwarding is logged with the same value and, when that value encodes,
    the write completes with the cache holding it, encoded again. *)
Theorem group_write_caches_before_writable_check {Payload : Type} `{Transcoder Payload}
    (self : HtDataPoint Payload) (telegram : Telegram Payload) :
  accepts self telegram = true ->
  (writable self = false ->
   payload (param_value (Eff.final (process_group_write telegram self)))
   = Some (telegram_payload telegram))
  /\ forall v,
       from_knx (rv_class (param_value self)) (telegram_payload telegram) = inr v ->
       (writable self = false ->
        Eff.result (process_group_write telegram self) = inr tt
        /\ payload (param_value (Eff.final (process_group_write telegram self)))
           = Some (telegram_payload telegram)
        /\ Eff.trace (process_group_write telegram self)
           = [Info_group_write telegram; Warning_non_writable (name self) (Some v)])
       /\ (writable self = true ->
           Eff.trace (process_group_write telegram self)
           = [Info_group_write telegram; Info_set_param_async (name self) (Some v)]
           /\ forall p,
                to_knx (rv_class (param_value self)) v = inr p ->
                Eff.result (process_group_write telegram self) = inr tt
                /\ payload (param_value (Eff.final (process_group_write telegram self)))
                   = Some p).
Proof.
  intros Hacc. rewrite (process_group_write_accepted telegram self Hacc).
  split.
  - intros Hw. rewrite Hw. destruct (from_knx _ _); reflexivity.
  - intros v Hv. rewrite Hv. split; intros Hw; rewrite Hw; cbn [negb].
    + repeat split.
    + split.
      * destruct (to_knx _ v); reflexivity.
      * intros p Hp. rewrite Hp. split; reflexivity.
Qed.

(** The switch, not writable and caching nothing, is written [True]: the
    cache holds the incoming payload afterwards. *)
Lemma group_write_caches_before_writable_check_witness :
  payload (param_value
             (Eff.final (process_group_write (mkTelegram 9%N (DPTBinary 1))
                                             (switch None false))))
  = Some (DPTBinary 1).
Proof.
  exact (proj1 (@group_write_caches_before_writable_check KnxPayload plain_transcoder
                  (switch None false) (mkTelegram 9%N (DPTBinary 1)) eq_refl) eq_refl).
Defined.

End HtDataPointFacts.

(** ** The fault notification *)

Module HtFaultNotificationFacts.
Import HtFaultNotification.

(** The tick, case by case.  The heat pump reports no fault. *)
Lemma do_clear (tick : Tick) (self : HtFaultNotification) :
  in_error_async tick = inr false ->
  do tick self = (inr tt, with_in_error self false, []).
Proof.
  intros Hq. unfold do, do_body, Eff.try_except, Eff.bind. rewrite Hq. reflexivity.
Qed.

(** The query of the fault flag raises. *)
Lemma do_query_raises (tick : Tick) (self : HtFaultNotification) (what : string) :
  in_error_async tick = inl what ->
  do tick self = (inr tt, self, [Log_exception (Raised what)]).
Proof.
  intros Hq. unfold do, do_body, Eff.try_except, Eff.bind. rewrite Hq. reflexivity.
Qed.

(** A fault is reported and no announcement is due. *)
Lemma do_not_due (tick : Tick) (self : HtFaultNotification) :
  in_error_async tick = inr true ->
  announce_due (now_at_check tick) self = (inr false, self, []) ->
  do tick self = (inr tt, self, []).
Proof.
  intros Hq Hdue. unfold do, do_body, Eff.try_except, Eff.bind.
  rewrite Hq. simpl. rewrite Hdue. reflexivity.
Qed.

(** A fault is reported and the elapsed-time comparison meets no
    timestamp. *)
Lemma do_missing_timestamp (tick : Tick) (self : HtFaultNotification) :
  in_error_async tick = inr true ->
  announce_due (now_at_check tick) self = (inl TypeError, self, []) ->
  do tick self = (inr tt, self, [Log_exception TypeError]).
Proof.
  intros Hq Hdue. unfold do, do_body, Eff.try_except, Eff.bind.
  rewrite Hq. simpl. rewrite Hdue. reflexivity.
Qed.

(** A fault is reported and an announcement is due: the fetch raises, or
    the two fields are set.  The call of [set] in between is not awaited:
    nothing is sent. *)
Lemma do_due (tick : Tick) (self : HtFaultNotification) :
  in_error_async tick = inr true ->
  announce_due (now_at_check tick) self = (inr true, self, []) ->
  do tick self =
    match get_last_fault_async tick with
    | inl what => (inr tt, self, [Log_exception (Raised what)])
    | inr fault =>
        (inr tt, with_last_sent_at (with_in_error self true) (Some (now_at_send tick)), [])
    end.
Proof.
  intros Hq Hdue. unfold do, do_body, Eff.try_except, Eff.bind.
  rewrite Hq. simpl. rewrite Hdue.
  destruct (get_last_fault_async tick) as [what | fault]; reflexivity.
Qed.

(** What [announce_due] computes. *)
Lemma announce_due_run (now : datetime) (self : HtFaultNotification) :
  announce_due now self =
    if negb (in_error self) then (inr true, self, [])
    else match repeat_after self with
         | None => (inr false, self, [])
         | Some d =>
             match last_sent_at self with
             | None => (inl TypeError, self, [])
             | Some t => (inr (d <=? now - t), self, [])
             end
         end.
Proof.
  unfold announce_due, interval_elapsed, Eff.bind, Eff.get, Eff.ret, Eff.raise.
  destruct (negb (in_error self)); [reflexivity |].
  destruct (repeat_after self); [| reflexivity].
  destruct (last_sent_at self); reflexivity.
Qed.

(** The three outcomes of [announce_due]. *)
Lemma announce_due_cases (now : datetime) (self : HtFaultNotification) :
  announce_due now self = (inr true, self, [])
  \/ announce_due now self = (inr false, self, [])
  \/ announce_due now self = (inl TypeError, self, []).
Proof.
  rewrite announce_due_run.
  destruct (negb (in_error self)); [left; reflexivity |].
  destruct (repeat_after self) as [d |]; [| right; left; reflexivity].
  destruct (last_sent_at self) as [t |]; [| right; right; reflexivity].
  destruct (d <=? now - t); [left | right; left]; reflexivity.
Qed.

(** Every tick ends in one of five ways. *)
Lemma do_cases (tick : Tick) (self : HtFaultNotification) :
  do tick self = (inr tt, with_in_error self false, [])
  \/ do tick self = (inr tt, self, [])
  \/ (exists what, do tick self = (inr tt, self, [Log_exception (Raised what)]))
  \/ (do tick self = (inr tt, self, [Log_exception TypeError])
      /\ in_error self = true /\ last_sent_at self = None)
  \/ (in_error_async tick = inr true
      /\ (exists fault, get_last_fault_async tick = inr fault)
      /\ do tick self =
           (inr tt, with_last_sent_at (with_in_error self true) (Some (now_at_send tick)),
            [])).
Proof.
  destruct (in_error_async tick) as [what | [|]] eqn:Hq.
  - right. right. left. exists what. exact (do_query_raises tick self what Hq).
  - destruct (announce_due_cases (now_at_check tick) self) as [Hdue | [Hdue | Hdue]].
    + rewrite (do_due tick self Hq Hdue).
      destruct (get_last_fault_async tick) as [what | fault].
      * right. right. left. exists what. reflexivity.
      * right. right. right. right.
        split; [reflexivity |]. split; [exists fault |]; reflexivity.
    + right. left. exact (do_not_due tick self Hq Hdue).
    + right. right. right. left.
      split; [exact (do_missing_timestamp tick self Hq Hdue) |].
      rewrite announce_due_run in Hdue.
      destruct (in_error self); simpl in Hdue; [| discriminate Hdue].
      destruct (repeat_after self); [| discriminate Hdue].
      destruct (last_sent_at self); [discriminate Hdue | split; reflexivity].
  - left. exact (do_clear tick self Hq).
Qed.

Lemma timestamped_init (name : string) (repeat_after : option timedelta) :
  timestamped (init name repeat_after) = true.
Proof. reflexivity. Qed.

(** A tick keeps the invariant. *)
Lemma do_keeps_timestamped (tick : Tick) (self : HtFaultNotification) :
  timestamped self = true -> timestamped (Eff.final (do tick self)) = true.
Proof.
  intros Hinv.
  destruct (do_cases tick self)
    as [-> | [-> | [[what ->] | [[-> _] | (_ & _ & ->)]]]];
    try exact Hinv; reflexivity.
Qed.

(** Under the invariant the comparison always finds a timestamp. *)
Lemma timestamped_finds_timestamp (tick : Tick) (self : HtFaultNotification) :
  timestamped self = true -> fails_on_missing_timestamp (do tick self) = false.
Proof.
  intros Hinv.
  destruct (do_cases tick self)
    as [-> | [-> | [[what ->] | [[_ [Herr Hnone]] | (_ & _ & ->)]]]];
    try reflexivity.
  unfold timestamped in Hinv. rewrite Herr, Hnone in Hinv. discriminate Hinv.
Qed.

Lemma run_timestamped (ticks : list Tick) :
  forall self, timestamped self = true -> timestamped (run self ticks) = true.
Proof.
  induction ticks as [| tick rest IH]; intros self Hinv; simpl.
  - exact Hinv.
  - apply IH. exact (do_keeps_timestamped tick self Hinv).
Qed.


(** C5, as the code has it.  The external flag stays true and the fault
    was announced at [t].  Without a repeat interval, the tick emits
    nothing and changes nothing; with the interval [d], so does a tick less
    than [d] after [t].  A tick at least [d] after [t] whose fetch succeeds
    sets [last_sent_at] to the time read after the fetch, and emits
    nothing: the call of [set] that should send the message is not
    awaited. *)
Theorem repeat_announcement_is_not_emitted (tick : Tick) (self : HtFaultNotification)
    (t : datetime) :
  in_error_async tick = inr true ->
  in_error self = true ->
  last_sent_at self = Some t ->
  (repeat_after self = None -> do tick self = (inr tt, self, []))
  /\ (forall d, repeat_after self = Some d -> now_at_check tick - t < d ->
        do tick self = (inr tt, self, []))
  /\ (forall d fault, repeat_after self = Some d -> d <= now_at_check tick - t ->
        get_last_fault_async tick = inr fault ->
        do tick self = (inr tt, with_last_sent_at self (Some (now_at_send tick)), [])
        /\ emits (do tick self) = false).
Proof.
  intros Hq Herr Hsent.
  pose proof (announce_due_run (now_at_check tick) self) as Hdue.
  rewrite Herr, Hsent in Hdue. simpl in Hdue.
  split; [| split].
  - intros Hnone. rewrite Hnone in Hdue. exact (do_not_due tick self Hq Hdue).
  - intros d Hd Hlt. rewrite Hd in Hdue.
    destruct (Z.leb_spec d (now_at_check tick - t)) as [Hle | _]; [lia |].
    exact (do_not_due tick self Hq Hdue).
  - intros d fault Hd Hle Hfetch. rewrite Hd in Hdue.
    destruct (Z.leb_spec d (now_at_check tick - t)) as [_ | Hlt]; [| lia].
    rewrite (do_due tick self Hq Hdue), Hfetch.
    unfold with_last_sent_at, with_in_error. simpl. rewrite Herr. split; reflexivity.
Qed.

(** Announced at time 0 with a repeat interval of one hour: the tick two
    hours later moves [last_sent_at] and emits nothing. *)
Lemma repeat_announcement_is_not_emitted_witness :
  do (failing_tick (2 * hour)) (mkHtFaultNotification "fault" (Some hour) (Some 0) true)
  = (inr tt, mkHtFaultNotification "fault" (Some hour) (Some (2 * hour)) true, []).
Proof.
  apply (proj2 (proj2 (repeat_announcement_is_not_emitted (failing_tick (2 * hour))
           (mkHtFaultNotification "fault" (Some hour) (Some 0) true) 0
           eq_refl eq_refl eq_refl)) hour a_fault);
    [reflexivity | unfold hour; simpl; lia | reflexivity].
Defined.

(** C6.  A tick never lets an exception out.  If it logged one, the fields
    are what they were before the tick and nothing was emitted.  An
    exception of the in-error query or of the last-fault fetch is logged.
    After a fetch that succeeded nothing can fail any more: handing the
    message over is a call that is not awaited, and the tick completes
    without logging an exception. *)
Theorem tick_failure_preserves_state (tick : Tick) (self : HtFaultNotification) :
  Eff.result (do tick self) = inr tt
  /\ (logs_exception (do tick self) = true ->
      Eff.final (do tick self) = self /\ emits (do tick self) = false)
  /\ (forall what, in_error_async tick = inl what ->
        do tick self = (inr tt, self, [Log_exception (Raised what)]))
  /\ (forall what, in_error_async tick = inr true ->
        announce_due (now_at_check tick) self = (inr true, self, []) ->
        get_last_fault_async tick = inl what ->
        do tick self = (inr tt, self, [Log_exception (Raised what)]))
  /\ (forall fault, in_error_async tick = inr true ->
        announce_due (now_at_check tick) self = (inr true, self, []) ->
        get_last_fault_async tick = inr fault ->
        logs_exception (do tick self) = false).
Proof.
  split; [| split; [| split; [| split]]].
  - destruct (do_cases tick self)
      as [-> | [-> | [[what ->] | [[-> _] | (_ & _ & ->)]]]]; reflexivity.
  - destruct (do_cases tick self)
      as [-> | [-> | [[what ->] | [[-> _] | (_ & _ & ->)]]]];
      intros Hlog; try discriminate Hlog; split; reflexivity.
  - intros what Hq. exact (do_query_raises tick self what Hq).
  - intros what Hq Hdue Hfetch. rewrite (do_due tick self Hq Hdue), Hfetch. reflexivity.
  - intros fault Hq Hdue Hfetch. rewrite (do_due tick self Hq Hdue), Hfetch. reflexivity.
Qed.

(** The fetch of the last fault raises on the first tick in error, and the
    query raises on an object in error: the fields keep their values. *)
Lemma tick_failure_preserves_state_witness :
  do (mkTick (inr true) 50 (inl "timeout") 51) (init "fault" None)
    = (inr tt, init "fault" None, [Log_exception (Raised "timeout")])
  /\ do (mkTick (inl "no answer") 50 (inr a_fault) 51)
        (mkHtFaultNotification "fault" (Some 10) (Some 0) true)
     = (inr tt, mkHtFaultNotification "fault" (Some 10) (Some 0) true,
        [Log_exception (Raised "no answer")]).
Proof.
  split.
  - exact (proj1 (proj2 (proj2 (proj2
             (tick_failure_preserves_state
                (mkTick (inr true) 50 (inl "timeout") 51) (init "fault" None)))))
             "timeout" eq_refl eq_refl eq_refl).
  - exact (proj1 (proj2 (proj2
             (tick_failure_preserves_state
                (mkTick (inl "no answer") 50 (inr a_fault) 51)
                (mkHtFaultNotification "fault" (Some 10) (Some 0) true))))
             "no answer" eq_refl).
Defined.

(** C9.  From construction on and after any run of ticks, an object in
    error carries a timestamp, and whatever the next tick is, its
    elapsed-time comparison does not fail on a missing timestamp. *)
Theorem in_error_has_timestamp (name : string) (repeat_after : option timedelta)
    (ticks : list Tick) :
  timestamped (run (init name repeat_after) ticks) = true
  /\ forall tick,
       fails_on_missing_timestamp (do tick (run (init name repeat_after) ticks)) = false.
Proof.
  assert (Hinv : timestamped (run (init name repeat_after) ticks) = true)
    by exact (run_timestamped ticks _ (timestamped_init name repeat_after)).
  split; [exact Hinv |].
  intros tick. exact (timestamped_finds_timestamp tick _ Hinv).
Qed.

End HtFaultNotificationFacts.

(** ** The validators *)

Module ConfigValidationFacts.
Import ConfigValidation.

(** *** Booleans *)

Lemma lower_char_idempotent (c : ascii) : lower_char (lower_char c) = lower_char c.
Proof. destruct c as [[] [] [] [] [] [] [] []]; reflexivity. Qed.

Lemma lower_idempotent (s : string) : lower (lower s) = lower s.
Proof.
  induction s as [| c r IH]; simpl.
  - reflexivity.
  - rewrite lower_char_idempotent, IH. reflexivity.
Qed.

(** No token is in both tables. *)
Lemma tokens_disjoint (t : string) :
  member t true_tokens = true -> member t false_tokens = false.
Proof.
  unfold member, true_tokens. simpl. intros Hin.
  repeat (apply orb_prop in Hin as [Hin | Hin];
          [apply String.eqb_eq in Hin; subst t; reflexivity |]).
  discriminate Hin.
Qed.

(** C8.  The boolean coercion: each token of the two tables, in lower or
    upper case and with blanks around it, maps to its boolean; strings that
    differ only in the case of their letters are coerced alike; a number
    maps to whether it is non-zero; and coercing the result of a successful
    coercion gives that result again. *)
Theorem boolean_case_insensitive_idempotent :
  (forall s, member (strip (lower s)) true_tokens = true -> boolean (ArgStr s) = inr true)
  /\ (forall s, member (strip (lower s)) false_tokens = true -> boolean (ArgStr s) = inr false)
  /\ (forall s, boolean (ArgStr (lower s)) = boolean (ArgStr s))
  /\ (forall s t, lower s = lower t -> boolean (ArgStr s) = boolean (ArgStr t))
  /\ (boolean (ArgStr "TRUE") = inr true /\ boolean (ArgStr " Yes ") = inr true
      /\ boolean (ArgStr "oN") = inr true /\ boolean (ArgStr "Enable") = inr true
      /\ boolean (ArgStr "1") = inr true /\ boolean (ArgStr "FALSE") = inr false
      /\ boolean (ArgStr "No") = inr false /\ boolean (ArgStr "OFF") = inr false
      /\ boolean (ArgStr "disABLE") = inr false /\ boolean (ArgStr "0") = inr false)
  /\ (forall z, boolean (ArgInt z) = inr (negb (z =? 0)))
  /\ (forall x b, boolean x = inr b -> boolean (ArgBool b) = boolean x).
Proof.
  split; [| split; [| split; [| split; [| split; [| split]]]]].
  - intros s Hin. unfold boolean. rewrite Hin. reflexivity.
  - intros s Hin. unfold boolean. rewrite Hin.
    destruct (member (strip (lower s)) true_tokens) eqn:Hyes; [| reflexivity].
    rewrite (tokens_disjoint _ Hyes) in Hin. discriminate Hin.
  - intros s. unfold boolean. rewrite lower_idempotent. reflexivity.
  - intros s t Heq. unfold boolean. rewrite Heq. reflexivity.
  - repeat split.
  - intros z. reflexivity.
  - intros x b Hx. rewrite Hx. reflexivity.
Qed.

(** [" Yes "] is coerced to [True], and coercing [True] gives [True]. *)
Lemma boolean_case_insensitive_idempotent_witness :
  boolean (ArgStr " Yes ") = inr true /\ boolean (ArgBool true) = boolean (ArgStr " Yes ").
Proof.
  split.
  - exact (proj1 boolean_case_insensitive_idempotent " Yes " eq_refl).
  - exact (proj2 (proj2 (proj2 (proj2 (proj2 (proj2 boolean_case_insensitive_idempotent)))))
             (ArgStr " Yes ") true eq_refl).
Defined.

(** *** Durations: the string builtins on runs of digits *)

Lemma digit_is_plain (c : ascii) :
  is_digit c = true ->
  is_blank c = false /\ Ascii.eqb c ":" = false /\ Ascii.eqb c "-" = false
  /\ Ascii.eqb c "+" = false.
Proof.
  destruct c as [[] [] [] [] [] [] [] []]; intros Hd;
    first [discriminate Hd | repeat split].
Qed.

Lemma all_digits_no_colon (s : string) :
  all_digits s = true -> contains ":" s = false.
Proof.
  induction s as [| c r IH]; simpl; intros Hd.
  - reflexivity.
  - apply andb_prop in Hd as [Hc Hr].
    destruct (digit_is_plain c Hc) as (_ & Hcolon & _).
    rewrite Hcolon, (IH Hr). reflexivity.
Qed.

Lemma is_number_all_digits (s : string) : is_number s = true -> all_digits s = true.
Proof. destruct s; [discriminate | trivial]. Qed.

(** A text without the separator is one field. *)
Lemma split_single (sep : ascii) (a : string) :
  contains sep a = false -> split sep a = [a].
Proof.
  induction a as [| c r IH]; simpl; intros Hno.
  - reflexivity.
  - apply orb_false_elim in Hno as [Hc Hr].
    rewrite Hc, (IH Hr). reflexivity.
Qed.


Lemma drop_blanks_digits (s : string) : all_digits s = true -> drop_blanks s = s.
Proof.
  induction s as [| c r IH]; simpl; intros Hd.
  - reflexivity.
  - apply andb_prop in Hd as [Hc Hr].
    rewrite (IH Hr).
    destruct (digit_is_plain c Hc) as (Hspace & _).
    destruct r; [rewrite Hspace |]; reflexivity.
Qed.

Lemma trim_number (s : string) : is_number s = true -> trim s = s.
Proof.
  intros Hn. unfold trim.
  destruct s as [| c r]; [discriminate Hn |].
  simpl in Hn. pose proof Hn as Hall.
  apply andb_prop in Hn as [Hc _].
  destruct (digit_is_plain c Hc) as (Hspace & _).
  simpl skip_blanks. rewrite Hspace.
  apply drop_blanks_digits. exact Hall.
Qed.

Lemma more_digits_all (s : string) :
  forall acc, all_digits s = true -> more_digits acc s = Some (decimal_from acc s).
Proof.
  induction s as [| c r IH]; simpl; intros acc Hd.
  - reflexivity.
  - apply andb_prop in Hd as [Hc Hr].
    rewrite Hc. apply IH. exact Hr.
Qed.

(** [int] reads a run of digits as the number it writes. *)
Lemma py_int_number (s : string) : is_number s = true -> py_int s = Some (decimal s).
Proof.
  intros Hn. unfold py_int. rewrite (trim_number s Hn).
  destruct s as [| c r]; [discriminate Hn |].
  simpl in Hn. apply andb_prop in Hn as [Hc Hr].
  destruct (digit_is_plain c Hc) as (_ & _ & Hminus & Hplus).
  simpl startswith. rewrite Hminus, Hplus.
  simpl. rewrite Hc. unfold decimal. simpl.
  apply more_digits_all. exact Hr.
Qed.

(** A number does not start with a sign. *)
Lemma number_starts_unsigned (s rest : string) :
  is_number s = true ->
  startswith (s ++ rest)%string "-" = false /\ startswith (s ++ rest)%string "+" = false.
Proof.
  intros Hn. destruct s as [| c r]; [discriminate Hn |].
  simpl in Hn. apply andb_prop in Hn as [Hc _].
  destruct (digit_is_plain c Hc) as (_ & _ & Hminus & Hplus).
  simpl. split; assumption.
Qed.

Lemma append_empty (s : string) : (s ++ "")%string = s.
Proof. induction s as [| c r IH]; simpl; [| rewrite IH]; reflexivity. Qed.


Lemma digit_value_range (c : ascii) : is_digit c = true -> 0 <= digit_value c <= 9.
Proof.
  unfold is_digit, digit_value. intros Hd.
  apply andb_prop in Hd as [Hlo Hhi].
  apply Z.leb_le in Hlo, Hhi. lia.
Qed.

Lemma decimal_from_nonneg (s : string) :
  forall acc, 0 <= acc -> all_digits s = true -> 0 <= decimal_from acc s.
Proof.
  induction s as [| c r IH]; cbn [decimal_from all_digits]; intros acc Hacc Hd.
  - exact Hacc.
  - apply andb_prop in Hd as [Hc Hr].
    pose proof (digit_value_range c Hc).
    apply IH; [lia | exact Hr].
Qed.

(** Whole seconds are read exactly, whatever reads the fractions. *)
Lemma seconds_field_number (float_field : string -> Seconds) (ss : string) :
  is_number ss = true ->
  decimal ss <= 2 ^ 53 ->
  seconds_field float_field ss = Seconds_us (decimal ss * us_per_second).
Proof.
  intros Hn Hsmall. unfold seconds_field. rewrite (py_int_number ss Hn).
  pose proof (decimal_from_nonneg ss 0 (Z.le_refl 0) (is_number_all_digits ss Hn)) as Hpos.
  fold (decimal ss) in Hpos.
  rewrite (Z.abs_eq _ Hpos).
  destruct (Z.leb_spec (decimal ss) (2 ^ 53)) as [_ | Hbig]; [reflexivity | lia].
Qed.


(** The parser on a text whose fields are not two or three, or whose hour
    or minute [int] does not read. *)
Lemma time_period_str_refuses (float_field : string -> Seconds) (text : string) :
  (List.length (split ":" (without_sign text)) =? 2)%nat
  || (List.length (split ":" (without_sign text)) =? 3)%nat = false
  \/ py_int (nth 0 (split ":" (without_sign text)) EmptyString) = None
  \/ py_int (nth 1 (split ":" (without_sign text)) EmptyString) = None ->
  time_period_str float_field (ArgStr text)
  = inl (Invalid (Time_period_error (ArgStr (without_sign text)))).
Proof.
  intros Hbad. unfold time_period_str. fold (without_sign text). cbv zeta.
  destruct ((List.length (split ":" (without_sign text)) =? 2)%nat
            || (List.length (split ":" (without_sign text)) =? 3)%nat) eqn:Hcount;
    [| reflexivity].
  cbn [negb].
  destruct Hbad as [Hbad | [Hbad | Hbad]]; [discriminate Hbad | |].
  - rewrite Hbad. reflexivity.
  - rewrite Hbad.
    destruct (py_int (nth 0 (split ":" (without_sign text)) EmptyString)); reflexivity.
Qed.










End ConfigValidationFacts.

(** ** The datapoint: construction, single operations and runs *)

Module HtDataPointLifeFacts.
Import HtDataPoint HtDataPointLife.

Section LifeFacts.
Context {Payload : Type} `{Transcoder Payload}.

(** [set] when the cached value is the value given. *)
Lemma set_equal_run (v : PyVal) (cached : option PyVal) (self : HtDataPoint Payload) :
  value self = inr cached ->
  py_ne_opt v cached = false ->
  set (Some v) self = (inr tt, self, []).
Proof.
  intros Hvalue Heq. rewrite HtDataPointFacts.set_run, Hvalue, Heq. reflexivity.
Qed.

(** [set] that sends: the cached value differs, sending on change is on
    and, on a sensor, the threshold test holds. *)
Lemma set_sending_run (v : PyVal) (cached : option PyVal) (self : HtDataPoint Payload) :
  value self = inr cached ->
  py_ne_opt v cached = true ->
  send_on_change self = true ->
  is_switch (rv_class (param_value self)) = true \/ change_is_due self v = inr true ->
  set (Some v) self =
    match group_address (param_value self) with
    | None => (inr tt, with_last_sent_value self (Some v), [])
    | Some address =>
        match param_to_knx self v with
        | inl ex => (inl ex, self, [])
        | inr p =>
            (inr tt, with_last_sent_value self (Some v), [Bus_send address p false])
        end
    end.
Proof.
  intros Hvalue Hne Hsend Hdue.
  rewrite HtDataPointFacts.set_run, Hvalue, Hne, Hsend.
  destruct Hdue as [Hswitch | Hdue].
  - rewrite Hswitch. reflexivity.
  - destruct (is_switch (rv_class (param_value self))); rewrite ?Hdue; reflexivity.
Qed.

(** [set] ends with the object as it was, or with a payload cached, or
    with the value recorded. *)
Lemma set_final (v : option PyVal) (self : HtDataPoint Payload) :
  Eff.final (set v self) = self
  \/ (exists p, Eff.final (set v self) = with_payload self (Some p))
  \/ (exists w, v = Some w /\ Eff.final (set v self) = with_last_sent_value self v).
Proof.
  destruct v as [v |]; [| left; reflexivity].
  rewrite HtDataPointFacts.set_run.
  destruct (value self) as [ex | cached]; [left; reflexivity |].
  destruct (py_ne_opt v cached); [| left; reflexivity].
  destruct (if send_on_change self
            then if is_switch (rv_class (param_value self)) then inr true
                 else change_is_due self v
            else inr false) as [ex | [|]]; [left; reflexivity | |].
  - destruct (group_address (param_value self)).
    + destruct (param_to_knx self v); [left; reflexivity |].
      right. right. exists v. split; reflexivity.
    + right. right. exists v. split; reflexivity.
  - destruct (param_to_knx self v) as [ex | p]; [left; reflexivity |].
    right. left. exists p. reflexivity.
Qed.

(** A group write ends with the object as it was or with a payload
    cached. *)
Lemma process_group_write_final (telegram : Telegram Payload) (self : HtDataPoint Payload) :
  Eff.final (process_group_write telegram self) = self
  \/ exists p, Eff.final (process_group_write telegram self) = with_payload self (Some p).
Proof.
  rewrite HtDataPointFacts.process_group_write_run.
  destruct (group_address (param_value self)); [| left; reflexivity].
  destruct (negb (N.eqb _ _)); [left; reflexivity |].
  destruct (negb (payload_valid _ _)); [left; reflexivity |].
  destruct (from_knx _ _) as [ex | v]; [right; eexists; reflexivity |].
  destruct (negb (writable self)); [right; eexists; reflexivity |].
  destruct (to_knx _ v); right; eexists; reflexivity.
Qed.

(** One operation keeps the configuration. *)
Lemma run_op_keeps_configuration (o : Op Payload) (self : HtDataPoint Payload) :
  same_configuration (Eff.final (run_op o self)) self.
Proof.
  destruct o as [v | telegram | telegram | response]; cbn [run_op].
  - destruct (set_final v self) as [-> | [[p ->] | (w & _ & ->)]]; repeat split.
  - destruct (process_group_write_final telegram self) as [-> | [p ->]]; repeat split.
  - rewrite HtDataPointFacts.process_group_read_keeps_self. repeat split.
  - rewrite HtDataPointFacts.broadcast_keeps_self. repeat split.
Qed.

Lemma same_configuration_trans (a b c : HtDataPoint Payload) :
  same_configuration a b -> same_configuration b c -> same_configuration a c.
Proof.
  unfold same_configuration.
  intros (A1 & A2 & A3 & A4 & A5 & A6 & A7) (B1 & B2 & B3 & B4 & B5 & B6 & B7).
  repeat split; etransitivity; eassumption.
Qed.

Lemma run_ops_keep_configuration (ops : list (Op Payload)) :
  forall self, same_configuration (fst (run_ops ops self)) self.
Proof.
  induction ops as [| o rest IH]; intros self; cbn [run_ops fst].
  - repeat split.
  - exact (same_configuration_trans _ _ _ (IH _) (run_op_keeps_configuration o self)).
Qed.

(** On a datapoint with a group address, after one operation
    [last_sent_value] is what it was or a value sent in that operation. *)
Lemma run_op_last_sent (o : Op Payload) (self : HtDataPoint Payload) (v : PyVal)
    (address : GroupAddress) :
  group_address (param_value self) = Some address ->
  last_sent_value (Eff.final (run_op o self)) = Some v ->
  last_sent_value self = Some v
  \/ exists p, param_to_knx self v = inr p
               /\ In (Bus_send address p false) (Eff.trace (run_op o self)).
Proof.
  intros Haddr.
  destruct o as [[w |] | telegram | telegram | response]; cbn [run_op].
  - rewrite HtDataPointFacts.set_run, Haddr.
    destruct (value self) as [ex | cached]; [intros Hv; left; exact Hv |].
    destruct (py_ne_opt w cached); [| intros Hv; left; exact Hv].
    destruct (if send_on_change self
              then if is_switch (rv_class (param_value self)) then inr true
                   else change_is_due self w
              else inr false) as [ex | [|]]; [intros Hv; left; exact Hv | |].
    + destruct (param_to_knx self w) as [ex | p] eqn:Hp; [intros Hv; left; exact Hv |].
      simpl. intros Hv. injection Hv as <-. right. exists p.
      split; [exact Hp | left; reflexivity].
    + destruct (param_to_knx self w); intros Hv; left; exact Hv.
  - intros Hv. left. exact Hv.
  - rewrite (proj1 (HtDataPointFacts.process_group_write_frame telegram self)).
    intros Hv. left. exact Hv.
  - rewrite HtDataPointFacts.process_group_read_keeps_self. intros Hv. left. exact Hv.
  - rewrite HtDataPointFacts.broadcast_keeps_self. intros Hv. left. exact Hv.
Qed.

Lemma run_ops_last_sent (ops : list (Op Payload)) :
  forall (self : HtDataPoint Payload) (v : PyVal) (address : GroupAddress),
    group_address (param_value self) = Some address ->
    last_sent_value (fst (run_ops ops self)) = Some v ->
    last_sent_value self = Some v
    \/ exists p, param_to_knx self v = inr p
                 /\ In (Bus_send address p false) (snd (run_ops ops self)).
Proof.
  induction ops as [| o rest IH]; intros self v address Haddr; cbn [run_ops fst snd].
  - intros Hv. left. exact Hv.
  - intros Hv.
    destruct (run_op_keeps_configuration o self) as (_ & Hclass & Hsame & _).
    destruct (IH _ v address (eq_trans Hsame Haddr) Hv) as [Hstep | (p & Hp & Hlater)].
    + destruct (run_op_last_sent o self v address Haddr Hstep) as [Hold | (p & Hp & Hnow)].
      * left. exact Hold.
      * right. exists p. split; [exact Hp |]. apply in_or_app. left. exact Hnow.
    + right. exists p. split.
      * unfold param_to_knx in *. rewrite <- Hclass. exact Hp.
      * apply in_or_app. right. exact Hlater.
Qed.

(** Without send-on-change, [set] sends nothing and records nothing. *)
Lemma set_without_send_on_change (v : option PyVal) (self : HtDataPoint Payload) :
  send_on_change self = false ->
  transmits (set v self) = false
  /\ last_sent_value (Eff.final (set v self)) = last_sent_value self.
Proof.
  intros Hoff. destruct v as [v |]; [| split; reflexivity].
  rewrite HtDataPointFacts.set_run, Hoff.
  destruct (value self) as [ex | cached]; [split; reflexivity |].
  destruct (py_ne_opt v cached); [| split; reflexivity].
  destruct (param_to_knx self v); split; reflexivity.
Qed.

(** Without send-on-change a run never moves [last_sent_value]. *)
Lemma last_sent_value_never_set (ops : list (Op Payload)) :
  forall self : HtDataPoint Payload,
    send_on_change self = false ->
    last_sent_value (fst (run_ops ops self)) = last_sent_value self.
Proof.
  induction ops as [| o rest IH]; intros self Hoff; cbn [run_ops fst].
  - reflexivity.
  - destruct (run_op_keeps_configuration o self) as (_ & _ & _ & _ & _ & Hsame & _).
    rewrite (IH _ (eq_trans Hsame Hoff)).
    destruct o as [v | telegram | telegram | response]; cbn [run_op].
    + exact (proj2 (set_without_send_on_change v self Hoff)).
    + exact (proj1 (HtDataPointFacts.process_group_write_frame telegram self)).
    + rewrite HtDataPointFacts.process_group_read_keeps_self. reflexivity.
    + rewrite HtDataPointFacts.broadcast_keeps_self. reflexivity.
Qed.

(** What [init] leaves: nothing cached, nothing sent, the flags as
    given. *)
Lemma init_fields `{Constructors} (name : string) (group_address value_type : option PyVal)
    (writable cyclic_sending send_on_change : bool) (on_change_of : option PyVal)
    (self : HtDataPoint Payload) :
  init name group_address value_type writable cyclic_sending send_on_change on_change_of
  = inr self ->
  payload (param_value self) = None
  /\ last_sent_value self = None
  /\ HtDataPoint.send_on_change self = send_on_change.
Proof.
  unfold init.
  destruct (is_binary value_type).
  - destruct (remote_value_switch group_address) as [ex | address]; [discriminate |].
    intros Hself. injection Hself as <-. repeat split.
  - destruct (remote_value_sensor group_address value_type) as [ex | [address kind]];
      [discriminate |].
    intros Hself. injection Hself as <-. repeat split.
Qed.
End LifeFacts.

(** X1.  On a switch with a group address whose cached value decodes and
    differs from [v]: if the remote value encodes [v], [set(v)] with
    send-on-change sends [v] once, as a spontaneous write to the group
    address, records it as [last_sent_value], whatever [on_change_of] is,
    and leaves the cache as it is; without send-on-change it only caches
    the encoded [v].  If the remote value does not encode [v], the call
    raises and changes nothing. *)
Theorem set_switch_on_change {Payload : Type} `{Transcoder Payload}
    (self : HtDataPoint Payload) (v : PyVal) (address : GroupAddress)
    (cached : option PyVal) :
  is_switch (rv_class (param_value self)) = true ->
  group_address (param_value self) = Some address ->
  value self = inr cached ->
  py_ne_opt v cached = true ->
  (forall p, param_to_knx self v = inr p ->
     set (Some v) self =
       if send_on_change self
       then (inr tt, with_last_sent_value self (Some v), [Bus_send address p false])
       else (inr tt, with_payload self (Some p), []))
  /\ (forall ex, param_to_knx self v = inl ex -> set (Some v) self = (inl ex, self, [])).
Proof.
  intros Hswitch Haddr Hvalue Hne.
  split.
  - intros p Hp.
    rewrite HtDataPointFacts.set_run, Hvalue, Hne, Hswitch, Haddr, Hp.
    destruct (send_on_change self); reflexivity.
  - intros ex Hex.
    rewrite HtDataPointFacts.set_run, Hvalue, Hne, Hswitch, Haddr, Hex.
    destruct (send_on_change self); reflexivity.
Qed.

(** The switch, caching [False], is set to [True]: one telegram, [True]
    recorded and [False] still cached, though a threshold is configured.
    Set to the number 1, it raises. *)
Lemma set_switch_on_change_witness :
  set (Some (PyBool true))
      (mkHtDataPoint "pump" (mkRemoteValue RemoteValueSwitch (Some 9%N) (Some (DPTBinary 0)))
                     false false true (Some (PyInt 5)) (Some (PyBool false)))
  = (inr tt,
     mkHtDataPoint "pump" (mkRemoteValue RemoteValueSwitch (Some 9%N) (Some (DPTBinary 0)))
                   false false true (Some (PyInt 5)) (Some (PyBool true)),
     [Bus_send 9%N (DPTBinary 1) false])
  /\ Eff.result (set (Some (PyInt 1)) (switch (Some 0) false)) = inl ConversionError.
Proof.
  split.
  - exact (proj1 (@set_switch_on_change KnxPayload plain_transcoder
                    (mkHtDataPoint "pump"
                       (mkRemoteValue RemoteValueSwitch (Some 9%N) (Some (DPTBinary 0)))
                       false false true (Some (PyInt 5)) (Some (PyBool false)))
                    (PyBool true) 9%N (Some (PyBool false))
                    eq_refl eq_refl eq_refl eq_refl)
             (DPTBinary 1) eq_refl).
  - rewrite (proj2 (@set_switch_on_change KnxPayload plain_transcoder
                      (switch (Some 0) false) (PyInt 1) 9%N (Some (PyBool false))
                      eq_refl eq_refl eq_refl eq_refl)
               ConversionError eq_refl).
    reflexivity.
Defined.

(** X2.  [set] of [None], and [set] of a value equal to the cached one,
    do nothing at all: no telegram, no log line, no field changed, also when
    the value was never transmitted. *)
Theorem set_unchanged_value_is_silent {Payload : Type} `{Transcoder Payload}
    (self : HtDataPoint Payload) :
  set None self = (inr tt, self, [])
  /\ forall v cached,
       value self = inr cached -> py_ne_opt v cached = false ->
       set (Some v) self = (inr tt, self, []).
Proof.
  split; [reflexivity |].
  intros v cached Hvalue Heq. exact (set_equal_run v cached self Hvalue Heq).
Qed.

(** The sensor caches 10 and has sent nothing yet: [set(10)] is silent,
    and so is [set(10.0)]. *)
Lemma set_unchanged_value_is_silent_witness :
  set (Some (PyInt 10)) (sensor (Some 10) true None None)
  = (inr tt, sensor (Some 10) true None None, [])
  /\ set (Some (tenths 100)) (sensor (Some 10) true None None)
     = (inr tt, sensor (Some 10) true None None, []).
Proof.
  split.
  - exact (proj2 (@set_unchanged_value_is_silent KnxPayload plain_transcoder
                    (sensor (Some 10) true None None))
             (PyInt 10) (Some (PyInt 10)) eq_refl eq_refl).
  - exact (proj2 (@set_unchanged_value_is_silent KnxPayload plain_transcoder
                    (sensor (Some 10) true None None))
             (tenths 100) (Some (PyInt 10)) eq_refl eq_refl).
Defined.

(** X3.  The sending branch of [set] leaves the cache as it is.  So on a
    switch, or on a sensor without a threshold, a second [set(v)] right
    after one that sent [v] finds the cached value still different and
    sends [v] again. *)
Theorem set_again_sends_again {Payload : Type} `{Transcoder Payload}
    (self : HtDataPoint Payload) (v : PyVal) (address : GroupAddress)
    (cached : option PyVal) (p : Payload) :
  group_address (param_value self) = Some address ->
  send_on_change self = true ->
  is_switch (rv_class (param_value self)) = true \/ on_change_of self = None ->
  value self = inr cached ->
  py_ne_opt v cached = true ->
  param_to_knx self v = inr p ->
  set (Some v) self
  = (inr tt, with_last_sent_value self (Some v), [Bus_send address p false])
  /\ set (Some v) (Eff.final (set (Some v) self))
     = (inr tt, with_last_sent_value self (Some v), [Bus_send address p false]).
Proof.
  intros Haddr Hsend Hcase Hvalue Hne Hp.
  assert (Hfirst : set (Some v) self
                   = (inr tt, with_last_sent_value self (Some v),
                      [Bus_send address p false])).
  { rewrite (set_sending_run v cached self Hvalue Hne Hsend), Haddr, Hp; [reflexivity |].
    destruct Hcase as [Hswitch | Hnone]; [left; exact Hswitch |].
    right. unfold change_is_due. rewrite Hnone. reflexivity. }
  split; [exact Hfirst |].
  rewrite Hfirst. cbn [Eff.final fst snd].
  rewrite (set_sending_run v cached (with_last_sent_value self (Some v)) Hvalue Hne Hsend).
  - cbn [with_last_sent_value param_value]. rewrite Haddr.
    change (param_to_knx (with_last_sent_value self (Some v)) v) with (param_to_knx self v).
    rewrite Hp. reflexivity.
  - destruct Hcase as [Hswitch | Hnone]; [left; exact Hswitch |].
    right. unfold change_is_due. cbn [with_last_sent_value on_change_of].
    rewrite Hnone. reflexivity.
Qed.

(** [set(12)] twice on the sensor caching 10, without a threshold: 12 is
    sent twice. *)
Lemma set_again_sends_again_witness :
  set (Some (PyInt 12))
      (Eff.final (set (Some (PyInt 12)) (sensor (Some 10) true None None)))
  = (inr tt, sensor (Some 10) true None (Some (PyInt 12)),
     [Bus_send 7%N (DPTArray (Int 12)) false]).
Proof.
  exact (proj2 (@set_again_sends_again KnxPayload plain_transcoder
                  (sensor (Some 10) true None None) (PyInt 12) 7%N (Some (PyInt 10))
                  (DPTArray (Int 12)) eq_refl eq_refl (or_intror eq_refl)
                  eq_refl eq_refl eq_refl)).
Defined.

(** X4.  No run of operations changes the name, the class, the group
    address, [writable], [cyclic_sending], [send_on_change] or
    [on_change_of] of a datapoint. *)
Theorem operations_keep_configuration {Payload : Type} `{Transcoder Payload}
    (ops : list (Op Payload)) (self : HtDataPoint Payload) :
  same_configuration (fst (run_ops ops self)) self.
Proof. exact (run_ops_keep_configuration ops self). Qed.

(** X5.  On a datapoint with a group address that starts with no
    [last_sent_value], after any run of operations, a recorded
    [last_sent_value] was sent during the run: the remote value encodes it
    and the run handed that payload to the bus as a spontaneous write to
    the datapoint's group address. *)
Theorem last_sent_value_was_sent {Payload : Type} `{Transcoder Payload}
    (ops : list (Op Payload)) (self : HtDataPoint Payload) (v : PyVal)
    (address : GroupAddress) :
  group_address (param_value self) = Some address ->
  last_sent_value self = None ->
  last_sent_value (fst (run_ops ops self)) = Some v ->
  exists p, param_to_knx self v = inr p
            /\ In (Bus_send address p false) (snd (run_ops ops self)).
Proof.
  intros Haddr Hfresh Hv.
  destruct (run_ops_last_sent ops self v address Haddr Hv) as [Hold | Hsent].
  - rewrite Hfresh in Hold. discriminate Hold.
  - exact Hsent.
Qed.

(** A group read, [set(12)], a rejected group write: 12 is recorded and
    was sent. *)
Lemma last_sent_value_was_sent_witness :
  exists p,
    param_to_knx (sensor None true (Some 2) None) (PyInt 12) = inr p
    /\ In (Bus_send 7%N p false)
          (snd (run_ops [OpGroupRead (mkTelegram 7%N (DPTArray (Int 0)));
                         OpSet (Some (PyInt 12));
                         OpGroupWrite (mkTelegram 7%N (DPTArray (Int 30)))]
                        (sensor None true (Some 2) None))).
Proof.
  exact (@last_sent_value_was_sent KnxPayload plain_transcoder
           [OpGroupRead (mkTelegram 7%N (DPTArray (Int 0))); OpSet (Some (PyInt 12));
            OpGroupWrite (mkTelegram 7%N (DPTArray (Int 30)))]
           (sensor None true (Some 2) None) (PyInt 12) 7%N eq_refl eq_refl eq_refl).
Defined.

(** X6.  On a datapoint whose cached payload decodes (or that caches
    none): with a group address and a class that encodes the stand-in, a
    group read is answered by one telegram to the datapoint's own group
    address, flagged as a response, whether or not cyclic sending is on,
    and a broadcast that is not a response sends exactly when cyclic
    sending is on, and then flags the telegram as spontaneous; without a
    group address neither sends anything.  No field changes. *)
Theorem group_read_is_answered {Payload : Type} `{Transcoder Payload}
    (telegram : Telegram Payload) (self : HtDataPoint Payload) (cached : option PyVal) :
  value self = inr cached ->
  (forall address p,
     group_address (param_value self) = Some address ->
     param_to_knx self (stand_in self) = inr p ->
     process_group_read telegram self
     = (inr tt, self, [Info_group_read telegram; Bus_send address p true])
     /\ broadcast_value false self
        = (inr tt, self, if cyclic_sending self then [Bus_send address p false] else []))
  /\ (group_address (param_value self) = None ->
      process_group_read telegram self = (inr tt, self, [Info_group_read telegram])
      /\ broadcast_value false self = (inr tt, self, [])).
Proof.
  intros Hvalue. split.
  - intros address p Haddr Hp.
    rewrite HtDataPointFacts.process_group_read_run, HtDataPointFacts.broadcast_value_run,
      Hvalue, Haddr, Hp.
    split; [reflexivity |]. cbn [orb]. destruct (cyclic_sending self); reflexivity.
  - intros Haddr.
    rewrite HtDataPointFacts.process_group_read_run, HtDataPointFacts.broadcast_value_run,
      Hvalue, Haddr.
    split; [reflexivity |]. cbn [orb]. destruct (cyclic_sending self); reflexivity.
Qed.

(** A group read of the sensor, which caches nothing and does not send
    cyclically: one response. *)
Lemma group_read_is_answered_witness :
  process_group_read (mkTelegram 7%N (DPTArray (Int 0))) (sensor None false None None)
  = (inr tt, sensor None false None None,
     [Info_group_read (mkTelegram 7%N (DPTArray (Int 0)));
      Bus_send 7%N (DPTArray (Int 123)) true]).
Proof.
  exact (proj1 (proj1 (@group_read_is_answered KnxPayload plain_transcoder
                         (mkTelegram 7%N (DPTArray (Int 0))) (sensor None false None None)
                         None eq_refl)
                  7%N (DPTArray (Int 123)) eq_refl eq_refl)).
Defined.

(** X7.  After a group write the remote value accepted, whose payload
    decodes to [v], [set(v)] does nothing.  On a datapoint that is not
    writable this holds whatever the transcoder, for a value equal to itself
    (every value but a float nan): the rejected value sits in the cache and
    masks a later [set] of the same value.  On a writable one it holds when
    the transcoder gives a value equal to [v] back from its encoding. *)
Theorem set_after_group_write_is_silent {Payload : Type} `{Transcoder Payload}
    (self : HtDataPoint Payload) (telegram : Telegram Payload) (v : PyVal) :
  accepts self telegram = true ->
  from_knx (rv_class (param_value self)) (telegram_payload telegram) = inr v ->
  (writable self = false /\ py_ne v v = false)
  \/ (writable self = true
      /\ exists p w, to_knx (rv_class (param_value self)) v = inr p
                     /\ from_knx (rv_class (param_value self)) p = inr w
                     /\ py_ne v w = false) ->
  set (Some v) (Eff.final (process_group_write telegram self))
  = (inr tt, Eff.final (process_group_write telegram self), []).
Proof.
  intros Hacc Hv Hcase.
  rewrite (HtDataPointFacts.process_group_write_accepted telegram self Hacc), Hv.
  destruct Hcase as [[Hw Hself] | (Hw & p & w & Hp & Hback & Hround)]; rewrite Hw; cbn [negb].
  - apply (set_equal_run v (Some v)); [| exact Hself].
    unfold value. cbn. rewrite Hv. reflexivity.
  - rewrite Hp. apply (set_equal_run v (Some w)); [| exact Hround].
    unfold value. cbn. rewrite Hback. reflexivity.
Qed.

(** The bus writes 30 to the sensor, which is not writable; [set(30)] is
    then silent although 30 was never sent. *)
Lemma set_after_group_write_is_silent_witness :
  set (Some (PyInt 30))
      (Eff.final (process_group_write (mkTelegram 7%N (DPTArray (Int 30)))
                    (sensor (Some 10) true None (Some (PyInt 10)))))
  = (inr tt,
     Eff.final (process_group_write (mkTelegram 7%N (DPTArray (Int 30)))
                  (sensor (Some 10) true None (Some (PyInt 10)))),
     []).
Proof.
  exact (@set_after_group_write_is_silent KnxPayload plain_transcoder
           (sensor (Some 10) true None (Some (PyInt 10)))
           (mkTelegram 7%N (DPTArray (Int 30))) (PyInt 30)
           eq_refl eq_refl (or_introl (conj eq_refl eq_refl))).
Defined.

(** X8.  A datapoint built by [from_config] from a record without the key
    ["send_on_chnage"] has send-on-change off, whatever the record says
    under ["send_on_change"] and whatever its group address and value type:
    after any run of operations [set] sends nothing on it and
    [last_sent_value] is still unset. *)
Theorem from_config_never_sends_on_change {Payload : Type} `{Transcoder Payload}
    `{Constructors} (name : string) (config : Config) (self : HtDataPoint Payload) :
  get config "send_on_chnage" = None ->
  from_config name config = inr self ->
  send_on_change self = false
  /\ forall ops v,
       transmits (set v (fst (run_ops ops self))) = false
       /\ last_sent_value (fst (run_ops ops self)) = None.
Proof.
  intros Hkey Hbuilt.
  unfold from_config in Hbuilt. rewrite Hkey in Hbuilt.
  destruct (init_fields _ _ _ _ _ _ _ _ Hbuilt) as (_ & Hfresh & Hoff).
  cbn [truthy] in Hoff.
  split; [exact Hoff |].
  intros ops v.
  destruct (run_ops_keep_configuration ops self) as (_ & _ & _ & _ & _ & Hsame & _).
  split.
  - apply set_without_send_on_change. rewrite Hsame. exact Hoff.
  - rewrite (last_sent_value_never_set ops self Hoff). exact Hfresh.
Qed.

(** The record asks for sending on change under ["send_on_change"]; the
    datapoint built from it, at group address 1/2/3, has it off and [set]
    sends nothing. *)
Lemma from_config_never_sends_on_change_witness :
  @from_config KnxPayload plain_constructors "temp" a_config
  = inr (mkHtDataPoint "temp"
           (mkRemoteValue (RemoteValueSensor (PyStr "temperature")) (Some 2563%N) None)
           false false false (Some (PyInt 2)) None)
  /\ transmits
       (set (Some (PyInt 5))
            (mkHtDataPoint "temp"
               (mkRemoteValue (RemoteValueSensor (PyStr "temperature")) (Some 2563%N) None)
               false false false (Some (PyInt 2)) None))
     = false.
Proof.
  split; [reflexivity |].
  exact (proj1 (proj2 (@from_config_never_sends_on_change KnxPayload plain_transcoder
                         plain_constructors "temp" a_config _ eq_refl eq_refl)
                  [] (Some (PyInt 5)))).
Defined.

(** X9.  On a datapoint as [__init__] leaves it, with send-on-change and
    a group address, the first [set] of a value the remote value encodes
    goes out, for a switch and for a sensor and whatever the threshold:
    nothing is cached and nothing was sent, so the value counts as changed
    and as due.  It is sent once and recorded.  A value the remote value
    does not encode raises, and nothing is sent or recorded. *)
Theorem first_set_goes_out {Payload : Type} `{Transcoder Payload} `{Constructors}
    (name : string) (configured_address value_type : option PyVal)
    (writable cyclic_sending : bool) (on_change_of : option PyVal)
    (self : HtDataPoint Payload) (address : GroupAddress) (v : PyVal) :
  init name configured_address value_type writable cyclic_sending true on_change_of
  = inr self ->
  group_address (param_value self) = Some address ->
  (forall p, param_to_knx self v = inr p ->
     set (Some v) self
     = (inr tt, with_last_sent_value self (Some v), [Bus_send address p false]))
  /\ (forall ex, param_to_knx self v = inl ex -> set (Some v) self = (inl ex, self, [])).
Proof.
  intros Hinit Haddr.
  destruct (init_fields _ _ _ _ _ _ _ _ Hinit) as (Hpayload & Hfresh & Hsend).
  assert (Hvalue : value self = inr None) by (unfold value; rewrite Hpayload; reflexivity).
  assert (Hdue : change_is_due self v = inr true).
  { unfold change_is_due. rewrite Hfresh. destruct (HtDataPoint.on_change_of self); reflexivity. }
  assert (Hrun := set_sending_run v None self Hvalue eq_refl Hsend (or_intror Hdue)).
  rewrite Haddr in Hrun.
  split.
  - intros p Hp. rewrite Hrun, Hp. reflexivity.
  - intros ex Hex. rewrite Hrun, Hex. reflexivity.
Qed.

(** The temperature sensor at group address 7, fresh, with a threshold of
    2: [set(21)] goes out; [set(700000)] raises. *)
Lemma first_set_goes_out_witness :
  set (Some (PyInt 21)) (sensor None true (Some 2) None)
  = (inr tt, sensor None true (Some 2) (Some (PyInt 21)),
     [Bus_send 7%N (DPTArray (Int 21)) false])
  /\ set (Some (PyInt 700000)) (sensor None true (Some 2) None)
     = (inl ConversionError, sensor None true (Some 2) None, []).
Proof.
  split.
  - exact (proj1 (@first_set_goes_out KnxPayload plain_transcoder plain_constructors
                    "temp" (Some (PyInt 7)) (Some (PyStr "temperature")) false false
                    (Some (PyInt 2)) (sensor None true (Some 2) None) 7%N (PyInt 21)
                    eq_refl eq_refl)
             (DPTArray (Int 21)) eq_refl).
  - exact (proj2 (@first_set_goes_out KnxPayload plain_transcoder plain_constructors
                    "temp" (Some (PyInt 7)) (Some (PyStr "temperature")) false false
                    (Some (PyInt 2)) (sensor None true (Some 2) None) 7%N (PyInt 700000)
                    eq_refl eq_refl)
             ConversionError eq_refl).
Defined.

End HtDataPointLifeFacts.

(** ** The fault notification: transitions and runs *)

Module HtFaultNotificationRunFacts.
Import HtFaultNotification HtFaultNotificationRuns.

(** A tick on an object that is not in error, on which a fault is
    reported. *)
Lemma do_first_fault (tick : Tick) (self : HtFaultNotification) :
  in_error self = false ->
  in_error_async tick = inr true ->
  do tick self =
    match get_last_fault_async tick with
    | inl what => (inr tt, self, [Log_exception (Raised what)])
    | inr fault =>
        (inr tt, with_last_sent_at (with_in_error self true) (Some (now_at_send tick)), [])
    end.
Proof.
  intros Hclear Hq.
  apply (HtFaultNotificationFacts.do_due tick self Hq).
  rewrite HtFaultNotificationFacts.announce_due_run, Hclear. reflexivity.
Qed.


(** X10.  On an object that is not in error, a tick on which a fault is
    reported and the fetch succeeds marks the fault, whatever the repeat
    interval and whatever [last_sent_at] holds: it sets [in_error] and sets
    [last_sent_at] to the time read after the fetch.  The tick logs
    nothing. *)
Theorem first_fault_is_marked (tick : Tick) (self : HtFaultNotification)
    (fault : Fault) :
  in_error self = false ->
  in_error_async tick = inr true ->
  get_last_fault_async tick = inr fault ->
  do tick self
  = (inr tt,
     mkHtFaultNotification (name self) (repeat_after self) (Some (now_at_send tick)) true,
     []).
Proof.
  intros Hclear Hq Hfetch.
  rewrite (do_first_fault tick self Hclear Hq), Hfetch. reflexivity.
Qed.

(** The first tick after construction, with a repeat interval of one
    hour. *)
Lemma first_fault_is_marked_witness :
  do (failing_tick 100) (init "fault" (Some hour))
  = (inr tt, mkHtFaultNotification "fault" (Some hour) (Some 100) true, []).
Proof.
  exact (first_fault_is_marked (failing_tick 100) (init "fault" (Some hour)) a_fault
           eq_refl eq_refl eq_refl).
Defined.

(** X11.  A fault that goes and comes back is marked anew at once: a tick
    on which the heat pump reports no fault clears [in_error] and keeps
    [last_sent_at]; the next tick that reports a fault (its fetch
    succeeding) sets [in_error] and moves [last_sent_at], however short the
    time since the last mark and whatever the repeat interval. *)
Theorem returning_fault_is_marked_at_once (gone back : Tick)
    (self : HtFaultNotification) (fault : Fault) :
  in_error_async gone = inr false ->
  in_error_async back = inr true ->
  get_last_fault_async back = inr fault ->
  do gone self = (inr tt, with_in_error self false, [])
  /\ do back (Eff.final (do gone self))
     = (inr tt,
        mkHtFaultNotification (name self) (repeat_after self) (Some (now_at_send back)) true,
        []).
Proof.
  intros Hgone Hq Hfetch.
  rewrite (HtFaultNotificationFacts.do_clear gone self Hgone).
  split; [reflexivity |].
  unfold Eff.final. cbn [fst snd].
  rewrite (do_first_fault back (with_in_error self false) eq_refl Hq), Hfetch.
  reflexivity.
Qed.

(** Marked at time 0 with a repeat interval of one hour; the fault is gone
    one minute later and back after two minutes: it is marked again. *)
Lemma returning_fault_is_marked_at_once_witness :
  do (failing_tick (2 * minute))
     (Eff.final (do (clear_tick minute)
                    (mkHtFaultNotification "fault" (Some hour) (Some 0) true)))
  = (inr tt, mkHtFaultNotification "fault" (Some hour) (Some (2 * minute)) true, []).
Proof.
  exact (proj2 (returning_fault_is_marked_at_once
                  (clear_tick minute) (failing_tick (2 * minute))
                  (mkHtFaultNotification "fault" (Some hour) (Some 0) true) a_fault
                  eq_refl eq_refl eq_refl)).
Defined.

(** X12.  [last_sent_at] moves only in a tick on which the heat pump
    reports a fault and the fetch of the last fault succeeds: every other
    tick keeps it, and a tick that changes it sets it to the time read after
    the fetch, leaves the object in error and logs no exception. *)
Theorem last_sent_at_moves_only_after_fetch (tick : Tick) (self : HtFaultNotification) :
  last_sent_at (Eff.final (do tick self)) <> last_sent_at self ->
  in_error_async tick = inr true
  /\ (exists fault, get_last_fault_async tick = inr fault)
  /\ last_sent_at (Eff.final (do tick self)) = Some (now_at_send tick)
  /\ in_error (Eff.final (do tick self)) = true
  /\ logs_exception (do tick self) = false.
Proof.
  destruct (HtFaultNotificationFacts.do_cases tick self)
    as [-> | [-> | [[what ->] | [[-> _] | (Hq & Hfetch & ->)]]]];
    intros Hmoved; try (contradiction Hmoved; reflexivity).
  repeat split; assumption.
Qed.

(** The tick two hours after the mark, with a repeat interval of one
    hour: [last_sent_at] moves to the time of the tick. *)
Lemma last_sent_at_moves_only_after_fetch_witness :
  last_sent_at (Eff.final (do (failing_tick (2 * hour))
                              (mkHtFaultNotification "fault" (Some hour) (Some 0) true)))
  = Some (2 * hour).
Proof.
  exact (proj1 (proj2 (proj2 (last_sent_at_moves_only_after_fetch
                                (failing_tick (2 * hour))
                                (mkHtFaultNotification "fault" (Some hour) (Some 0) true)
                                ltac:(vm_compute; discriminate))))).
Defined.

(** X13.  After a tick that logs no exception, [in_error] is the flag the
    heat pump reported on that tick. *)
Theorem in_error_tracks_flag (tick : Tick) (self : HtFaultNotification) (flag : bool) :
  in_error_async tick = inr flag ->
  logs_exception (do tick self) = false ->
  in_error (Eff.final (do tick self)) = flag.
Proof.
  intros Hq Hquiet. destruct flag.
  - pose proof (HtFaultNotificationFacts.announce_due_run (now_at_check tick) self) as Hrun.
    destruct (HtFaultNotificationFacts.announce_due_cases (now_at_check tick) self)
      as [Hdue | [Hdue | Hdue]].
    + rewrite (HtFaultNotificationFacts.do_due tick self Hq Hdue) in *.
      destruct (get_last_fault_async tick) as [what | fault]; [discriminate Hquiet |].
      reflexivity.
    + rewrite (HtFaultNotificationFacts.do_not_due tick self Hq Hdue).
      unfold Eff.final. cbn [fst snd].
      rewrite Hdue in Hrun.
      destruct (in_error self); [reflexivity | discriminate Hrun].
    + rewrite (HtFaultNotificationFacts.do_missing_timestamp tick self Hq Hdue) in Hquiet.
      discriminate Hquiet.
  - rewrite (HtFaultNotificationFacts.do_clear tick self Hq). reflexivity.
Qed.

(** The fault is still reported ten minutes after it was marked: no
    exception, and the object is still in error. *)
Lemma in_error_tracks_flag_witness :
  in_error (Eff.final (do (failing_tick (10 * minute))
                          (mkHtFaultNotification "fault" (Some hour) (Some 0) true)))
  = true.
Proof.
  exact (in_error_tracks_flag (failing_tick (10 * minute))
           (mkHtFaultNotification "fault" (Some hour) (Some 0) true) true
           eq_refl eq_refl).
Defined.



End HtFaultNotificationRunFacts.

(** ** The other validators *)

Module ValidatorFacts.
Import ConfigValidation Validators.

(** *** Matching *)

Lemma matches_never (s : String.string) : matches Never s = false.
Proof. induction s as [| c r IH]; simpl; [reflexivity | exact IH]. Qed.

Lemma matches_empty (s : String.string) : matches Empty s = true <-> s = EmptyString.
Proof.
  destruct s as [| c r]; simpl.
  - split; reflexivity.
  - rewrite matches_never. split; discriminate.
Qed.

Lemma matches_alt (s : String.string) :
  forall a b, matches (Alt a b) s = matches a s || matches b s.
Proof.
  induction s as [| c r IH]; intros a b; simpl.
  - reflexivity.
  - apply IH.
Qed.

Lemma matches_class (p : ascii -> bool) (s : String.string) :
  matches (Class p) s = true <-> exists c, s = String c EmptyString /\ p c = true.
Proof.
  destruct s as [| c r]; simpl.
  - split; [discriminate | intros (c & Habs & _); discriminate Habs].
  - destruct (p c) eqn:Hp.
    + rewrite matches_empty. split.
      * intros ->. exists c. split; [reflexivity | exact Hp].
      * intros (d & Heq & _). injection Heq as _ Hr. exact Hr.
    + rewrite matches_never. split; [discriminate |].
      intros (d & Heq & Hd). injection Heq as <- _. rewrite Hp in Hd. discriminate Hd.
Qed.

(** A sequence matches a text that splits into a match of each part. *)
Lemma matches_seq (s : String.string) :
  forall a b,
    matches (Seq a b) s = true
    <-> exists s1 s2, s = (s1 ++ s2)%string /\ matches a s1 = true /\ matches b s2 = true.
Proof.
  induction s as [| c r IH]; intros a b.
  - simpl. split.
    + intros Hn. apply andb_prop in Hn as [Ha Hb].
      exists EmptyString, EmptyString. repeat split; assumption.
    + intros (s1 & s2 & Heq & Ha & Hb).
      destruct s1; [| discriminate Heq]. destruct s2; [| discriminate Heq].
      simpl in Ha, Hb. rewrite Ha, Hb. reflexivity.
  - cbn [matches derive].
    assert (Hstep : matches (Seq (derive c a) b) r = true
                    <-> exists r1 s2, r = (r1 ++ s2)%string
                                      /\ matches a (String c r1) = true
                                      /\ matches b s2 = true)
      by (rewrite IH; reflexivity).
    destruct (nullable a) eqn:Hnull.
    + rewrite matches_alt. split.
      * intros Hm. apply orb_prop in Hm as [Hm | Hm].
        -- apply Hstep in Hm as (r1 & s2 & -> & Ha & Hb).
           exists (String c r1), s2. repeat split; assumption.
        -- exists EmptyString, (String c r). repeat split; assumption.
      * intros (s1 & s2 & Heq & Ha & Hb). apply orb_true_intro.
        destruct s1 as [| d r1].
        -- right. simpl in Heq. subst s2. exact Hb.
        -- left. simpl in Heq. injection Heq as <- ->.
           apply Hstep. exists r1, s2. repeat split; assumption.
    + split.
      * intros Hm. apply Hstep in Hm as (r1 & s2 & -> & Ha & Hb).
        exists (String c r1), s2. repeat split; assumption.
      * intros (s1 & s2 & Heq & Ha & Hb).
        destruct s1 as [| d r1].
        -- simpl in Ha. rewrite Hnull in Ha. discriminate Ha.
        -- simpl in Heq. injection Heq as <- ->.
           apply Hstep. exists r1, s2. repeat split; assumption.
Qed.

(** A sequence that starts with one character of a class. *)
Lemma matches_class_then (p : ascii -> bool) (b : Regex) (s : String.string) :
  matches (Seq (Class p) b) s
  = match s with
    | EmptyString => false
    | String c r => p c && matches b r
    end.
Proof.
  destruct s as [| c r]; [reflexivity |].
  apply eq_true_iff_eq. rewrite matches_seq, andb_true_iff. split.
  - intros (s1 & s2 & Heq & Ha & Hb).
    apply matches_class in Ha as (d & -> & Hd).
    simpl in Heq. injection Heq as <- <-. split; assumption.
  - intros [Hc Hr]. exists (String c EmptyString), r.
    repeat split; [| exact Hr].
    apply matches_class. exists c. split; [reflexivity | exact Hc].
Qed.

(** Up to [n] digits. *)
Lemma matches_at_most_digits (n : nat) :
  forall s, matches (at_most n digit) s = all_digits s && (String.length s <=? n)%nat.
Proof.
  induction n as [| n IH]; intros s.
  - cbn [at_most]. apply eq_true_iff_eq. rewrite matches_empty, andb_true_iff.
    destruct s as [| c r]; simpl.
    + split; [intros _; split; reflexivity | reflexivity].
    + split; [discriminate | intros [_ Habs]; discriminate Habs].
  - cbn [at_most]. unfold opt. rewrite matches_alt. unfold digit at 1.
    rewrite matches_class_then.
    destruct s as [| c r].
    + reflexivity.
    + rewrite IH. simpl.
      rewrite matches_never, orb_false_r, andb_assoc. reflexivity.
Qed.

(** [lo] to [hi] digits. *)
Lemma matches_between_digits (lo : nat) :
  forall hi s, (lo <= hi)%nat ->
    matches (between lo hi digit) s = digits_between lo hi s.
Proof.
  induction lo as [| lo IH]; intros hi s Hle.
  - cbn [between]. rewrite matches_at_most_digits. unfold digits_between.
    simpl. rewrite andb_true_r. reflexivity.
  - destruct hi as [| hi]; [lia |].
    cbn [between Nat.pred]. unfold digit at 1. rewrite matches_class_then.
    destruct s as [| c r].
    + unfold digits_between. simpl. reflexivity.
    + rewrite (IH hi r) by lia. unfold digits_between. simpl.
      rewrite !andb_assoc. reflexivity.
Qed.

(** The text ends here, or with one line feed. *)
Lemma matches_dollar (s : String.string) :
  matches dollar s = true <-> exists line_fed, s = end_of_text line_fed.
Proof.
  unfold dollar, opt. rewrite matches_alt, orb_true_iff. unfold chr.
  rewrite matches_class, matches_empty. split.
  - intros [(c & -> & Hc) | ->].
    + apply Ascii.eqb_eq in Hc. subst c. exists true. reflexivity.
    + exists false. reflexivity.
  - intros ([|] & ->).
    + left. exists line_feed. split; [reflexivity | apply Ascii.eqb_refl].
    + right. reflexivity.
Qed.

Lemma matches_chr (c : ascii) (s : String.string) :
  matches (chr c) s = true <-> s = String c EmptyString.
Proof.
  unfold chr. rewrite matches_class. split.
  - intros (d & -> & Hd). apply Ascii.eqb_eq in Hd. subst d. reflexivity.
  - intros ->. exists c. split; [reflexivity | apply Ascii.eqb_refl].
Qed.

Lemma append_assoc (a b c : String.string) :
  ((a ++ b) ++ c)%string = (a ++ (b ++ c))%string.
Proof. induction a as [| x a IH]; simpl; [| rewrite IH]; reflexivity. Qed.

Lemma matches_digits (lo hi : nat) (s : String.string) :
  (lo <= hi)%nat ->
  matches (between lo hi digit) s = true <-> digits_between lo hi s = true.
Proof. intros Hle. rewrite (matches_between_digits lo hi s Hle). reflexivity. Qed.

(** What the group address pattern matches. *)
Lemma group_address_pattern (s : String.string) :
  re_match KNX_GA_REGEX s = true
  <-> exists main middle sub line_fed,
        s = group_address_text main middle sub line_fed
        /\ digits_between 1 2 main = true
        /\ match middle with
           | Some m => digits_between 1 2 m = true
           | None => True
           end
        /\ digits_between 1 4 sub = true.
Proof.
  unfold re_match, KNX_GA_REGEX, group_address_text. split.
  - intros Hm.
    apply matches_seq in Hm as (body & tail & -> & Hbody & Htail).
    apply matches_dollar in Htail as (line_fed & ->).
    apply matches_seq in Hbody as (main & rest & -> & Hmain & Hrest).
    apply matches_seq in Hrest as (mid & rest' & -> & Hmid & Hrest').
    apply matches_seq in Hrest' as (slash & sub & -> & Hslash & Hsub).
    apply matches_chr in Hslash. subst slash.
    apply (matches_digits 1 2) in Hmain; [| lia].
    apply (matches_digits 1 4) in Hsub; [| lia].
    unfold opt in Hmid. rewrite matches_alt in Hmid.
    apply orb_prop in Hmid as [Hmid | Hmid].
    + apply matches_seq in Hmid as (slash & m & -> & Hslash & Hm).
      apply matches_chr in Hslash. subst slash.
      apply (matches_digits 1 2) in Hm; [| lia].
      exists main, (Some m), sub, line_fed.
      repeat split; try assumption.
      rewrite !append_assoc. reflexivity.
    + apply matches_empty in Hmid. subst mid.
      exists main, None, sub, line_fed.
      repeat split; try assumption.
      rewrite !append_assoc. reflexivity.
  - intros (main & middle & sub & line_fed & -> & Hmain & Hmiddle & Hsub).
    apply matches_seq.
    exists (main ++ match middle with Some m => "/" ++ m | None => "" end ++ "/" ++ sub)%string,
           (end_of_text line_fed).
    split; [rewrite !append_assoc; reflexivity |].
    split; [| apply matches_dollar; exists line_fed; reflexivity].
    apply matches_seq. exists main, (match middle with Some m => "/" ++ m | None => "" end
                                    ++ "/" ++ sub)%string.
    split; [reflexivity |].
    split; [apply (matches_digits 1 2); [lia | exact Hmain] |].
    apply matches_seq. exists (match middle with Some m => "/" ++ m | None => "" end)%string,
                              ("/" ++ sub)%string.
    split; [reflexivity |]. split.
    + unfold opt. rewrite matches_alt. apply orb_true_intro.
      destruct middle as [m |].
      * left. apply matches_seq. exists "/"%string, m.
        split; [reflexivity |].
        split; [apply matches_chr; reflexivity |].
        apply (matches_digits 1 2); [lia | exact Hmiddle].
      * right. reflexivity.
    + apply matches_seq. exists "/"%string, sub.
      split; [reflexivity |].
      split; [apply matches_chr; reflexivity |].
      apply (matches_digits 1 4); [lia | exact Hsub].
Qed.

(** What the physical address pattern matches. *)
Lemma physical_address_pattern (s : String.string) :
  re_match KNX_PA_REGEX s = true
  <-> exists area main line line_fed,
        s = physical_address_text area main line line_fed
        /\ digits_between 1 2 area = true
        /\ digits_between 1 2 main = true
        /\ digits_between 1 3 line = true.
Proof.
  unfold re_match, KNX_PA_REGEX, physical_address_text. split.
  - intros Hm.
    apply matches_seq in Hm as (body & tail & -> & Hbody & Htail).
    apply matches_dollar in Htail as (line_fed & ->).
    apply matches_seq in Hbody as (area & rest & -> & Harea & Hrest).
    apply matches_seq in Hrest as (dot & rest' & -> & Hdot & Hrest').
    apply matches_chr in Hdot. subst dot.
    apply matches_seq in Hrest' as (main & rest & -> & Hmain & Hrest).
    apply matches_seq in Hrest as (dot & line & -> & Hdot & Hline).
    apply matches_chr in Hdot. subst dot.
    apply (matches_digits 1 2) in Harea; [| lia].
    apply (matches_digits 1 2) in Hmain; [| lia].
    apply (matches_digits 1 3) in Hline; [| lia].
    exists area, main, line, line_fed.
    repeat split; try assumption.
    rewrite !append_assoc. reflexivity.
  - intros (area & main & line & line_fed & -> & Harea & Hmain & Hline).
    apply matches_seq.
    exists (area ++ "." ++ main ++ "." ++ line)%string, (end_of_text line_fed).
    split; [rewrite !append_assoc; reflexivity |].
    split; [| apply matches_dollar; exists line_fed; reflexivity].
    apply matches_seq. exists area, ("." ++ main ++ "." ++ line)%string.
    split; [reflexivity |].
    split; [apply (matches_digits 1 2); [lia | exact Harea] |].
    apply matches_seq. exists "."%string, (main ++ "." ++ line)%string.
    split; [reflexivity |].
    split; [apply matches_chr; reflexivity |].
    apply matches_seq. exists main, ("." ++ line)%string.
    split; [reflexivity |].
    split; [apply (matches_digits 1 2); [lia | exact Hmain] |].
    apply matches_seq. exists "."%string, line.
    split; [reflexivity |].
    split; [apply matches_chr; reflexivity |].
    apply (matches_digits 1 3); [lia | exact Hline].
Qed.

(** *** [str] of an [int], and [int] of it *)

(** Evaluate the value of the digit characters in the goal. *)
Ltac eval_digits :=
  repeat match goal with
         | |- context [digit_value ?c] =>
             let v := eval vm_compute in (digit_value c) in
             change (digit_value c) with v
         end.

Lemma uint_text_all_digits (d : Decimal.uint) :
  all_digits (NilEmpty.string_of_uint d) = true.
Proof. induction d; simpl; [reflexivity | assumption ..]. Qed.

Lemma uint_text_from (d : Decimal.uint) :
  forall acc : positive,
    decimal_from (Z.pos acc) (NilEmpty.string_of_uint d) = Z.pos (Pos.of_uint_acc d acc).
Proof.
  induction d; intros acc;
    cbn [NilEmpty.string_of_uint decimal_from Pos.of_uint_acc];
    [reflexivity | eval_digits; rewrite <- IHd; f_equal; lia ..].
Qed.

Lemma uint_text_decimal (d : Decimal.uint) :
  decimal (NilEmpty.string_of_uint d) = Z.of_N (Pos.of_uint d).
Proof.
  unfold decimal.
  induction d; cbn [NilEmpty.string_of_uint decimal_from Pos.of_uint];
    [reflexivity | eval_digits ..].
  - exact IHd.
  - exact (uint_text_from d 1).
  - exact (uint_text_from d 2).
  - exact (uint_text_from d 3).
  - exact (uint_text_from d 4).
  - exact (uint_text_from d 5).
  - exact (uint_text_from d 6).
  - exact (uint_text_from d 7).
  - exact (uint_text_from d 8).
  - exact (uint_text_from d 9).
Qed.

(** The text of a positive number: a run of digits that writes it. *)
Lemma positive_text (p : positive) :
  NilZero.string_of_uint (Pos.to_uint p) = NilEmpty.string_of_uint (Pos.to_uint p)
  /\ is_number (NilEmpty.string_of_uint (Pos.to_uint p)) = true
  /\ decimal (NilEmpty.string_of_uint (Pos.to_uint p)) = Z.pos p.
Proof.
  pose proof (DecimalPos.Unsigned.to_uint_nonnil p) as Hnonnil.
  pose proof (DecimalPos.Unsigned.of_to p) as Hback.
  pose proof (uint_text_all_digits (Pos.to_uint p)) as Hall.
  pose proof (uint_text_decimal (Pos.to_uint p)) as Hdec.
  rewrite Hback in Hdec.
  destruct (Pos.to_uint p); [contradiction Hnonnil; reflexivity | repeat split; assumption ..].
Qed.

(** The text of a number that is not negative. *)
Lemma int_text_natural (z : Z) :
  0 <= z -> is_number (int_text z) = true /\ decimal (int_text z) = z.
Proof.
  intros Hz. unfold int_text. destruct z as [| p | p]; [| | lia].
  - split; reflexivity.
  - cbn [Z.to_int NilZero.string_of_int].
    destruct (positive_text p) as (-> & Hnum & Hdec). split; assumption.
Qed.

(** The text of a negative number: a minus sign, then the text of its
    magnitude. *)
Lemma int_text_negative (z : Z) :
  z < 0 -> int_text z = String "-" (int_text (- z)).
Proof.
  intros Hz. destruct z as [| p | p]; [lia | lia |]. reflexivity.
Qed.

Lemma unsigned_literal_number (s : String.string) :
  is_number s = true -> unsigned_literal s = Some (decimal s).
Proof.
  intros Hn. destruct s as [| c r]; [discriminate Hn |].
  simpl in Hn. apply andb_prop in Hn as [Hc Hr].
  cbn [unsigned_literal]. rewrite Hc. unfold decimal. cbn [decimal_from].
  rewrite (ConfigValidationFacts.more_digits_all r _ Hr).
  reflexivity.
Qed.

(** [int(str(n)) == n]. *)
Lemma py_int_int_text (z : Z) : py_int (int_text z) = Some z.
Proof.
  destruct (Z.lt_ge_cases z 0) as [Hneg | Hpos].
  - rewrite (int_text_negative z Hneg).
    destruct (int_text_natural (- z)) as [Hnum Hdec]; [lia |].
    unfold py_int.
    assert (Hstrip : trim (String "-" (int_text (- z))) = String "-" (int_text (- z))).
    { unfold trim. cbn [skip_blanks].
      change (is_blank "-") with false. cbv iota.
      cbn [drop_blanks].
      rewrite (ConfigValidationFacts.drop_blanks_digits _
                 (ConfigValidationFacts.is_number_all_digits _ Hnum)).
      destruct (int_text (- z)); [discriminate Hnum | reflexivity]. }
    rewrite Hstrip. cbn [startswith tail].
    change (Ascii.eqb "-" "-") with true. cbv iota.
    rewrite (unsigned_literal_number _ Hnum), Hdec. simpl. f_equal. lia.
  - destruct (int_text_natural z) as [Hnum Hdec]; [lia |].
    rewrite (ConfigValidationFacts.py_int_number _ Hnum), Hdec. reflexivity.
Qed.

(** *** Keys, lists and strings *)

Lemma member_in (k : String.string) (keys : list String.string) :
  member k keys = true <-> In k keys.
Proof.
  unfold member. rewrite existsb_exists. split.
  - intros (x & Hin & Heq). apply String.eqb_eq in Heq. subst x. exact Hin.
  - intros Hin. exists k. split; [exact Hin | apply String.eqb_refl].
Qed.

Lemma some_key_known_spec (keys : list String.string)
    (entries : list (String.string * PyObj)) :
  some_key_known keys entries = true
  <-> exists k, In k (map fst entries) /\ In k keys.
Proof.
  induction entries as [| [k v] rest IH]; cbn [some_key_known map fst].
  - split; [discriminate | intros (k & [] & _)].
  - destruct (member k keys) eqn:Hk.
    + split; [| reflexivity]. intros _. exists k.
      split; [left; reflexivity | apply member_in; exact Hk].
    + rewrite IH. split.
      * intros (k' & Hin & Hkeys). exists k'. split; [right; exact Hin | exact Hkeys].
      * intros (k' & [<- | Hin] & Hkeys).
        -- apply member_in in Hkeys. rewrite Hkeys in Hk. discriminate Hk.
        -- exists k'. split; assumption.
Qed.

(** X15.  [has_at_least_one_key(keys)] returns its argument, unchanged,
    exactly when it is a [dict] one of whose keys is among [keys]; anything
    else it refuses: a value that is no [dict], the empty [dict], a [dict]
    with other keys only. *)
Theorem has_at_least_one_key_accepts (keys : list String.string) (obj r : PyObj) :
  (has_at_least_one_key keys obj = inr r
   <-> r = obj
       /\ exists entries, obj = PyDict entries
                          /\ exists k, In k (map fst entries) /\ In k keys)
  /\ (has_at_least_one_key keys obj = inr obj
      \/ is_refused (has_at_least_one_key keys obj) = true)
  /\ is_refused (has_at_least_one_key keys (PyDict [])) = true.
Proof.
  split; [| split; [| reflexivity]].
  - destruct obj as [a | items | entries]; cbn [has_at_least_one_key].
    + split; [discriminate | intros (_ & entries & Habs & _); discriminate Habs].
    + split; [discriminate | intros (_ & entries & Habs & _); discriminate Habs].
    + destruct (some_key_known keys entries) eqn:Hknown.
      * split.
        -- intros Heq. injection Heq as <-. split; [reflexivity |].
           exists entries. split; [reflexivity |].
           apply some_key_known_spec. exact Hknown.
        -- intros (-> & _). reflexivity.
      * split; [discriminate |].
        intros (_ & entries' & Heq & Hkey). injection Heq as <-.
        apply some_key_known_spec in Hkey. rewrite Hkey in Hknown. discriminate Hknown.
  - destruct obj as [a | items | entries]; cbn [has_at_least_one_key];
      [right; reflexivity | right; reflexivity |].
    destruct (some_key_known keys entries); [left | right]; reflexivity.
Qed.

(** [{"minutes": 5}] has one of the five keys of a period. *)
Lemma has_at_least_one_key_accepts_witness :
  has_at_least_one_key ["days"; "hours"; "minutes"; "seconds"; "milliseconds"]
    (PyDict [("minutes", Scalar (ArgInt 5))])
  = inr (PyDict [("minutes", Scalar (ArgInt 5))]).
Proof.
  apply (proj1 (has_at_least_one_key_accepts
                  ["days"; "hours"; "minutes"; "seconds"; "milliseconds"]
                  (PyDict [("minutes", Scalar (ArgInt 5))])
                  (PyDict [("minutes", Scalar (ArgInt 5))]))).
  split; [reflexivity |].
  exists [("minutes", Scalar (ArgInt 5))]. split; [reflexivity |].
  exists "minutes"%string. split; simpl; tauto.
Defined.

(** X16.  [ensure_list] is idempotent, and it never drops a value: [None]
    gives the empty list, a list is returned as it is, and every other
    value, falsy or not, gives the list of that one value. *)
Theorem ensure_list_wraps (value : PyObj) :
  ensure_list (PyList (ensure_list value)) = ensure_list value
  /\ (value = Scalar ArgNone -> ensure_list value = [])
  /\ (forall items, value = PyList items -> ensure_list value = items)
  /\ (value <> Scalar ArgNone -> (forall items, value <> PyList items) ->
      ensure_list value = [value]).
Proof.
  split; [reflexivity |]. split; [intros ->; reflexivity |].
  split; [intros items ->; reflexivity |].
  intros Hnone Hlist.
  destruct value as [[b | z | t |] | items | entries]; try reflexivity.
  - contradiction Hnone. reflexivity.
  - contradiction (Hlist items). reflexivity.
Qed.

(** The number 0 and the empty text are wrapped, not dropped. *)
Lemma ensure_list_wraps_witness :
  ensure_list (Scalar (ArgInt 0)) = [Scalar (ArgInt 0)]
  /\ ensure_list (Scalar (ArgStr "")) = [Scalar (ArgStr "")].
Proof.
  split.
  - apply (proj2 (proj2 (proj2 (ensure_list_wraps (Scalar (ArgInt 0)))))).
    + discriminate.
    + intros items. discriminate.
  - apply (proj2 (proj2 (proj2 (ensure_list_wraps (Scalar (ArgStr "")))))).
    + discriminate.
    + intros items. discriminate.
Defined.

(** X17.  [string] returns exactly for the scalars other than [None], with
    [str] of the value; it refuses [None], lists and [dict]s.  It is
    idempotent, and the text it gives for an [int] is read back by [int]
    as that number. *)
Theorem string_coerces (value : PyObj) (text : String.string) :
  (string value = inr text
   <-> exists a, value = Scalar a /\ a <> ArgNone /\ text = py_str a)
  /\ (string value = inr text -> string (Scalar (ArgStr text)) = inr text)
  /\ forall z, string (Scalar (ArgInt z)) = inr (int_text z)
               /\ py_int (int_text z) = Some z.
Proof.
  split; [| split].
  - destruct value as [[b | z | t |] | items | entries]; cbn [string]; split;
      try discriminate;
      try (intros Heq; injection Heq as <-; eexists; repeat split; discriminate);
      try (intros (a & Heq & Hnone & ->); injection Heq as <-; reflexivity);
      try (intros (a & Heq & _); discriminate Heq).
    intros (a & Heq & Hnone & _). injection Heq as <-. contradiction Hnone. reflexivity.
  - intros _. reflexivity.
  - intros z. split; [reflexivity | exact (py_int_int_text z)].
Qed.

(** [string(-7)] is ["-7"], and [string] of that is ["-7"] again. *)
Lemma string_coerces_witness :
  string (Scalar (ArgStr "-7")) = inr "-7"%string.
Proof.
  exact (proj1 (proj2 (string_coerces (Scalar (ArgInt (-7))) "-7")) eq_refl).
Defined.

(** *** Periods and ports *)

Section PeriodFacts.
Variable float_field : String.string -> Seconds.

(** A text without a colon is no duration text. *)
Lemma time_period_str_single_field (s : String.string) :
  is_number s = true ->
  raised (time_period_str float_field (ArgStr s))
  = inl (Refused (Said (Time_period_error (ArgStr s)))).
Proof.
  intros Hn.
  assert (Hsign : without_sign s = s).
  { unfold without_sign.
    destruct (ConfigValidationFacts.number_starts_unsigned s EmptyString Hn) as [Hminus Hplus].
    rewrite ConfigValidationFacts.append_empty in Hminus, Hplus.
    rewrite Hminus, Hplus. reflexivity. }
  rewrite (ConfigValidationFacts.time_period_str_refuses float_field s).
  - rewrite Hsign. reflexivity.
  - left. rewrite Hsign.
    rewrite (ConfigValidationFacts.split_single ":" s
               (ConfigValidationFacts.all_digits_no_colon s
                  (ConfigValidationFacts.is_number_all_digits s Hn))).
    reflexivity.
Qed.

Lemma time_period_first (value : PyArg) (d : timedelta) :
  time_period_str float_field value = inr d -> time_period float_field value = inr d.
Proof.
  intros Hstr. unfold time_period. cbn [vol_any]. unfold compiled at 1.
  rewrite Hstr. reflexivity.
Qed.
End PeriodFacts.

(** X18.  [time_period] reads a plain number as seconds: an [int], which
    [time_period_str] alone refuses, and a text that is a run of digits,
    give that many seconds; a duration text that [time_period_str] reads
    gives what [time_period_str] gives. *)
Theorem time_period_reads_numbers_as_seconds (float_field : String.string -> Seconds) :
  (forall z, timedelta_in_range (z * us_per_second) = true ->
     time_period float_field (ArgInt z) = inr (z * us_per_second))
  /\ (forall s, is_number s = true -> decimal s <= 2 ^ 53 ->
        timedelta_in_range (decimal s * us_per_second) = true ->
        time_period float_field (ArgStr s) = inr (decimal s * us_per_second))
  /\ (forall value d, time_period_str float_field value = inr d ->
        time_period float_field value = inr d).
Proof.
  split; [| split].
  - intros z Hrange. unfold time_period. cbn [vol_any]. unfold compiled at 1.
    cbn [time_period_str raised]. unfold compiled at 1. unfold time_period_seconds.
    rewrite Hrange. reflexivity.
  - intros s Hn Hsmall Hrange. unfold time_period. cbn [vol_any]. unfold compiled at 1.
    rewrite (time_period_str_single_field float_field s Hn).
    unfold compiled at 1. unfold time_period_seconds.
    rewrite (ConfigValidationFacts.seconds_field_number float_field s Hn Hsmall), Hrange.
    reflexivity.
  - exact (time_period_first float_field).
Qed.

(** The number 90 and the text ["90"] are 90 seconds; ["1:30"] is 90
    minutes. *)
Lemma time_period_reads_numbers_as_seconds_witness :
  (forall float_field, time_period float_field (ArgInt 90) = inr (90 * us_per_second))
  /\ (forall float_field, time_period float_field (ArgStr "90") = inr (90 * us_per_second))
  /\ (forall float_field, time_period float_field (ArgStr "1:30") = inr (90 * us_per_minute)).
Proof.
  split; [| split]; intros float_field.
  - exact (proj1 (time_period_reads_numbers_as_seconds float_field) 90 eq_refl).
  - exact (proj1 (proj2 (time_period_reads_numbers_as_seconds float_field))
             "90"%string eq_refl ltac:(discriminate) eq_refl).
  - exact (proj2 (proj2 (time_period_reads_numbers_as_seconds float_field))
             (ArgStr "1:30") (90 * us_per_minute) eq_refl).
Defined.

(** X19.  [time_interval] returns exactly the periods [time_period] reads
    that are not negative, zero included, and refuses the negative ones. *)
Theorem time_interval_is_not_negative (float_field : String.string -> Seconds)
    (value : PyArg) (d : timedelta) :
  (time_interval float_field value = inr d
   <-> time_period float_field value = inr d /\ 0 <= d)
  /\ (time_period float_field value = inr d -> d < 0 ->
      time_interval float_field value = inl (Refused Should_be_positive)).
Proof.
  unfold time_interval, vol_all, compiled, positive_timedelta.
  destruct (time_period float_field value) as [[why | |] | d'].
  - split; [split; [discriminate | intros [Habs _]; discriminate Habs] | discriminate].
  - split; [split; [discriminate | intros [Habs _]; discriminate Habs] | discriminate].
  - split; [split; [discriminate | intros [Habs _]; discriminate Habs] | discriminate].
  - destruct (Z.ltb_spec d' 0) as [Hneg | Hpos].
    + split.
      * split; [discriminate |]. intros [Heq Hd]. injection Heq as ->. lia.
      * reflexivity.
    + split.
      * split.
        -- intros Heq. injection Heq as ->. split; [reflexivity | exact Hpos].
        -- intros [Heq _]. exact Heq.
      * intros Heq Hd. injection Heq as ->. lia.
Qed.

(** ["-1:30"] is a period of minus 90 minutes, and no interval; ["0:00"]
    is the interval of no length. *)
Lemma time_interval_is_not_negative_witness :
  (forall float_field,
     time_interval float_field (ArgStr "-1:30") = inl (Refused Should_be_positive))
  /\ (forall float_field, time_interval float_field (ArgStr "0:00") = inr 0).
Proof.
  split; intros float_field.
  - exact (proj2 (time_interval_is_not_negative float_field (ArgStr "-1:30")
                    (- (90 * us_per_minute))) eq_refl eq_refl).
  - exact (proj2 (proj1 (time_interval_is_not_negative float_field (ArgStr "0:00") 0))
             (conj eq_refl (Z.le_refl 0))).
Defined.

(** X20.  On a [bool], an [int] or a [str], [port] returns exactly the
    numbers from 1 to 65535 that [int] makes of its argument, and refuses
    the others; a port number and its text are both read as that number,
    and the text ["80"] followed by a separator control is refused. *)
Theorem port_is_in_range (value : PyArg) (p : Z) :
  (port value = inr p <-> py_int_of value = Some p /\ 1 <= p <= 65535)
  /\ (py_int_of value = None -> port value = inl (Refused Expected_int))
  /\ (1 <= p <= 65535 ->
      port (ArgInt p) = inr p /\ port (ArgStr (int_text p)) = inr p)
  /\ port (ArgStr (String "8" (String "0" (String (ascii_of_N 28) EmptyString))))
     = inl (Refused Expected_int).
Proof.
  assert (Hrun : forall v, port v = match py_int_of v with
                                    | Some z => range 1 65535 z
                                    | None => inl (Refused Expected_int)
                                    end).
  { intros v. unfold port, vol_all, compiled, coerce_int.
    destruct (py_int_of v) as [z |]; [| reflexivity].
    unfold range. destruct (negb (1 <=? z)); [reflexivity |].
    destruct (negb (z <=? 65535)); reflexivity. }
  assert (Hrange : forall z, range 1 65535 z
                             = if (1 <=? z) && (z <=? 65535) then inr z
                               else inl (Refused Out_of_range)).
  { intros z. unfold range. destruct (1 <=? z), (z <=? 65535); reflexivity. }
  split; [| split; [| split]].
  - rewrite Hrun. destruct (py_int_of value) as [z |].
    + rewrite Hrange.
      destruct (Z.leb_spec 1 z), (Z.leb_spec z 65535); cbn [andb]; split;
        try discriminate;
        try (intros [Heq Hb]; injection Heq as ->; lia);
        try (intros Heq; injection Heq as ->; split; [reflexivity | lia]).
      intros [Heq _]. injection Heq as ->. reflexivity.
    + split; [discriminate | intros [Habs _]; discriminate Habs].
  - intros Hnone. rewrite Hrun, Hnone. reflexivity.
  - intros Hp. rewrite !Hrun. cbn [py_int_of]. rewrite (py_int_int_text p), Hrange.
    destruct (Z.leb_spec 1 p), (Z.leb_spec p 65535); try lia. split; reflexivity.
  - reflexivity.
Qed.

(** The text ["8080"] is port 8080. *)
Lemma port_is_in_range_witness :
  port (ArgStr "8080") = inr 8080.
Proof.
  exact (proj2 (proj1 (proj2 (proj2 (port_is_in_range (ArgInt 8080) 8080)))
                  ltac:(lia))).
Defined.

(** *** Addresses *)

Lemma isdigit_char_is_plain (c : ascii) :
  is_digit c || is_superscript c = true ->
  is_blank c = false /\ Ascii.eqb c "/" = false /\ Ascii.eqb c "-" = false
  /\ Ascii.eqb c "+" = false /\ (is_digit c = false -> Ascii.eqb c "_" = false).
Proof.
  destruct c as [[] [] [] [] [] [] [] []]; intros Hd;
    first [discriminate Hd | repeat split; discriminate].
Qed.

Lemma all_digits_isdigit (s : String.string) :
  all_digits s = true -> all_isdigit s = true.
Proof.
  induction s as [| c r IH]; simpl; intros Hd; [reflexivity |].
  apply andb_prop in Hd as [Hc Hr]. rewrite Hc, (IH Hr). reflexivity.
Qed.

Lemma is_number_isdigit (s : String.string) : is_number s = true -> py_isdigit s = true.
Proof.
  destruct s as [| c r]; [discriminate |]. exact (all_digits_isdigit (String c r)).
Qed.

Lemma all_isdigit_no_slash (s : String.string) :
  all_isdigit s = true -> contains "/" s = false.
Proof.
  induction s as [| c r IH]; simpl; intros Hd; [reflexivity |].
  apply andb_prop in Hd as [Hc Hr].
  destruct (isdigit_char_is_plain c Hc) as (_ & Hslash & _).
  rewrite Hslash, (IH Hr). reflexivity.
Qed.

Lemma contains_append (c : ascii) (a b : String.string) :
  contains c (a ++ b)%string = contains c a || contains c b.
Proof.
  induction a as [| x a IH]; simpl; [reflexivity |].
  rewrite IH, orb_assoc. reflexivity.
Qed.

(** Whatever the group address pattern matches has a slash. *)
Lemma no_slash_no_group_address (s : String.string) :
  contains "/" s = false -> re_match KNX_GA_REGEX s = false.
Proof.
  intros Hno. destruct (re_match KNX_GA_REGEX s) eqn:Hm; [| reflexivity].
  apply group_address_pattern in Hm as (main & middle & sub & line_fed & -> & _).
  unfold group_address_text in Hno.
  rewrite !contains_append in Hno. simpl in Hno.
  rewrite !orb_true_r in Hno. discriminate Hno.
Qed.

Lemma drop_blanks_isdigit (s : String.string) : all_isdigit s = true -> drop_blanks s = s.
Proof.
  induction s as [| c r IH]; simpl; intros Hd; [reflexivity |].
  apply andb_prop in Hd as [Hc Hr]. rewrite (IH Hr).
  destruct (isdigit_char_is_plain c Hc) as (Hspace & _).
  destruct r; [rewrite Hspace |]; reflexivity.
Qed.

Lemma more_digits_superscript (s : String.string) :
  forall acc, all_isdigit s = true -> all_digits s = false -> more_digits acc s = None.
Proof.
  induction s as [| c r IH]; simpl; intros acc Hd Hnot; [discriminate Hnot |].
  apply andb_prop in Hd as [Hc Hr].
  destruct (isdigit_char_is_plain c Hc) as (_ & _ & _ & _ & Hunder).
  destruct (is_digit c) eqn:Hdigit.
  - apply IH; [exact Hr | exact Hnot].
  - rewrite (Hunder eq_refl). reflexivity.
Qed.

(** [int] refuses a text of digits to [isdigit] that are not all
    decimal. *)
Lemma py_int_superscript (s : String.string) :
  py_isdigit s = true -> is_number s = false -> py_int s = None.
Proof.
  intros Hd Hnot. unfold py_int, trim.
  destruct s as [| c r]; [discriminate Hd |].
  cbn [py_isdigit] in Hd. cbn [is_number] in Hnot.
  pose proof Hd as Hall. cbn [all_isdigit] in Hd.
  apply andb_prop in Hd as [Hc Hr].
  destruct (isdigit_char_is_plain c Hc) as (Hspace & _ & Hminus & Hplus & Hunder).
  cbn [skip_blanks]. rewrite Hspace, (drop_blanks_isdigit _ Hall).
  cbn [startswith]. rewrite Hminus, Hplus.
  cbn [unsigned_literal]. cbn [all_digits] in Hnot.
  destruct (is_digit c); [| reflexivity].
  apply more_digits_superscript; assumption.
Qed.

(** X21.  [ensure_group_address] returns the text of its argument,
    unchanged, exactly when that text is a free address (digits to
    [isdigit] that [int] reads as a number from 0 to 65535) or a structured
    one: [main/sub] or [main/middle/sub] with one or two digits for [main]
    and [middle] and one to four for [sub], possibly followed by one line
    feed. *)
Theorem ensure_group_address_accepts (value : PyArg) (r : String.string) :
  ensure_group_address value = inr r
  <-> r = py_str value
      /\ ((py_isdigit r = true /\ exists n, py_int r = Some n /\ 0 <= n <= 65535)
          \/ exists main middle sub line_fed,
               r = group_address_text main middle sub line_fed
               /\ digits_between 1 2 main = true
               /\ match middle with
                  | Some m => digits_between 1 2 m = true
                  | None => True
                  end
               /\ digits_between 1 4 sub = true).
Proof.
  unfold ensure_group_address. cbv zeta. unfold KNX_GA_MAX_FREE.
  set (text := py_str value).
  destruct (py_isdigit text) eqn:Hdigit.
  - assert (Hno : re_match KNX_GA_REGEX text = false).
    { apply no_slash_no_group_address. apply all_isdigit_no_slash.
      destruct text; [discriminate Hdigit | exact Hdigit]. }
    destruct (py_int text) as [n |] eqn:Hint.
    + destruct (Z.leb_spec 0 n), (Z.leb_spec n 65535); cbn [andb]; rewrite ?Hno; cbn [negb].
      * split.
        -- intros Heq. injection Heq as <-. split; [reflexivity |].
           left. split; [exact Hdigit |]. exists n. split; [exact Hint | lia].
        -- intros (-> & _). reflexivity.
      * split; [discriminate |].
        intros (-> & [(_ & m & Hm & Hb) | Hform]).
        -- rewrite Hint in Hm. injection Hm as <-. lia.
        -- apply group_address_pattern in Hform. rewrite Hno in Hform. discriminate Hform.
      * split; [discriminate |].
        intros (-> & [(_ & m & Hm & Hb) | Hform]).
        -- rewrite Hint in Hm. injection Hm as <-. lia.
        -- apply group_address_pattern in Hform. rewrite Hno in Hform. discriminate Hform.
      * split; [discriminate |].
        intros (-> & [(_ & m & Hm & Hb) | Hform]).
        -- rewrite Hint in Hm. injection Hm as <-. lia.
        -- apply group_address_pattern in Hform. rewrite Hno in Hform. discriminate Hform.
    + split; [discriminate |].
      intros (-> & [(_ & m & Hm & _) | Hform]).
      * rewrite Hint in Hm. discriminate Hm.
      * apply group_address_pattern in Hform. rewrite Hno in Hform. discriminate Hform.
  - destruct (re_match KNX_GA_REGEX text) eqn:Hm; cbn [negb].
    + split.
      * intros Heq. injection Heq as <-. split; [reflexivity |].
        right. apply group_address_pattern. exact Hm.
      * intros (-> & _). reflexivity.
    + split; [discriminate |].
      intros (-> & [(Hd & _) | Hform]).
      * rewrite Hdigit in Hd. discriminate Hd.
      * apply group_address_pattern in Hform. rewrite Hm in Hform. discriminate Hform.
Qed.

(** ["1/2/3"], ["1/3"] and ["100"] are group addresses. *)
Lemma ensure_group_address_accepts_witness :
  ensure_group_address (ArgStr "1/2/3") = inr "1/2/3"%string
  /\ ensure_group_address (ArgStr "1/3") = inr "1/3"%string
  /\ ensure_group_address (ArgStr "100") = inr "100"%string.
Proof.
  split; [| split].
  - apply (proj2 (ensure_group_address_accepts (ArgStr "1/2/3") "1/2/3")).
    split; [reflexivity |]. right.
    exists "1"%string, (Some "2"%string), "3"%string, false. repeat split.
  - apply (proj2 (ensure_group_address_accepts (ArgStr "1/3") "1/3")).
    split; [reflexivity |]. right.
    exists "1"%string, None, "3"%string, false. repeat split.
  - apply (proj2 (ensure_group_address_accepts (ArgStr "100") "100")).
    split; [reflexivity |]. left. split; [reflexivity |].
    exists 100. split; [reflexivity | lia].
Defined.

(** X22.  A free group address: [ensure_group_address] returns the
    decimal text of an [int] from 0 to 65535 and refuses every other [int],
    and it returns a text of decimal digits, as it is written, when the
    number it writes is at most 65535, and refuses it otherwise. *)
Theorem ensure_group_address_free :
  (forall z,
     ensure_group_address (ArgInt z)
     = if (0 <=? z) && (z <=? 65535) then inr (int_text z)
       else inl (Refused (Not_a_group_address (int_text z))))
  /\ (forall s, is_number s = true ->
        ensure_group_address (ArgStr s)
        = if decimal s <=? 65535 then inr s
          else inl (Refused (Not_a_group_address s))).
Proof.
  assert (Hdigits : forall s, is_number s = true ->
            ensure_group_address (ArgStr s)
            = if (0 <=? decimal s) && (decimal s <=? 65535) then inr s
              else inl (Refused (Not_a_group_address s))).
  { intros s Hn. unfold ensure_group_address. cbn [py_str]. cbv zeta.
    rewrite (is_number_isdigit s Hn), (ConfigValidationFacts.py_int_number s Hn).
    unfold KNX_GA_MAX_FREE.
    destruct ((0 <=? decimal s) && (decimal s <=? 65535)); [reflexivity |].
    rewrite (no_slash_no_group_address s
               (all_isdigit_no_slash s
                  (all_digits_isdigit s (ConfigValidationFacts.is_number_all_digits s Hn)))).
    reflexivity. }
  split.
  - intros z. destruct (Z.lt_ge_cases z 0) as [Hneg | Hpos].
    + destruct (Z.leb_spec 0 z); [lia |]. cbn [andb].
      unfold ensure_group_address. cbn [py_str]. cbv zeta.
      rewrite (int_text_negative z Hneg).
      destruct (int_text_natural (- z)) as [Hnum _]; [lia |].
      cbn [py_isdigit all_isdigit].
      change (is_digit "-" || is_superscript "-") with false. cbn [andb].
      rewrite (no_slash_no_group_address (String "-" (int_text (- z)))); [reflexivity |].
      cbn [contains]. change (Ascii.eqb "-" "/") with false. cbn [orb].
      apply all_isdigit_no_slash, all_digits_isdigit.
      exact (ConfigValidationFacts.is_number_all_digits _ Hnum).
    + destruct (int_text_natural z) as [Hnum Hdec]; [lia |].
      change (ensure_group_address (ArgInt z))
        with (ensure_group_address (ArgStr (int_text z))).
      rewrite (Hdigits (int_text z) Hnum), Hdec. reflexivity.
  - intros s Hn. rewrite (Hdigits s Hn).
    pose proof (ConfigValidationFacts.decimal_from_nonneg s 0 (Z.le_refl 0)
                  (ConfigValidationFacts.is_number_all_digits s Hn)) as Hpos.
    fold (decimal s) in Hpos.
    destruct (Z.leb_spec 0 (decimal s)); [reflexivity | lia].
Qed.

(** ["70000"] is refused; ["0065535"] is returned with its zeros. *)
Lemma ensure_group_address_free_witness :
  ensure_group_address (ArgStr "70000") = inl (Refused (Not_a_group_address "70000"))
  /\ ensure_group_address (ArgStr "0065535") = inr "0065535"%string.
Proof.
  split.
  - exact (proj2 ensure_group_address_free "70000"%string eq_refl).
  - exact (proj2 ensure_group_address_free "0065535"%string eq_refl).
Defined.

(** X23.  A text of digits to [isdigit] that are not all decimal digits
    (a superscript two, three or one among them) is not refused: [int]
    raises on it and [ensure_group_address] lets that [ValueError] out. *)
Theorem ensure_group_address_lets_value_error_out (s : String.string) :
  py_isdigit s = true ->
  is_number s = false ->
  ensure_group_address (ArgStr s) = inl Value_error.
Proof.
  intros Hd Hnot. unfold ensure_group_address. cbn [py_str]. cbv zeta.
  rewrite Hd, (py_int_superscript s Hd Hnot). reflexivity.
Qed.

(** The text [1] followed by a superscript two. *)
Lemma ensure_group_address_lets_value_error_out_witness :
  ensure_group_address (ArgStr (String "1" (String (ascii_of_N 178) EmptyString)))
  = inl Value_error.
Proof.
  exact (ensure_group_address_lets_value_error_out
           (String "1" (String (ascii_of_N 178) EmptyString)) eq_refl eq_refl).
Defined.

(** X24.  [ensure_physical_address] returns the text of its argument,
    unchanged, exactly when that text is [area.main.line] with one or two
    digits for [area] and [main] and one to three for [line], possibly
    followed by one line feed; everything else it refuses. *)
Theorem ensure_physical_address_accepts (value : PyArg) (r : String.string) :
  (ensure_physical_address value = inr r
   <-> r = py_str value
       /\ exists area main line line_fed,
            r = physical_address_text area main line line_fed
            /\ digits_between 1 2 area = true
            /\ digits_between 1 2 main = true
            /\ digits_between 1 3 line = true)
  /\ (ensure_physical_address value = inr (py_str value)
      \/ ensure_physical_address value
         = inl (Refused (Not_a_physical_address (py_str value)))).
Proof.
  unfold ensure_physical_address. cbv zeta.
  destruct (re_match KNX_PA_REGEX (py_str value)) eqn:Hm; cbn [negb].
  - split; [| left; reflexivity]. split.
    + intros Heq. injection Heq as <-. split; [reflexivity |].
      apply physical_address_pattern. exact Hm.
    + intros (-> & _). reflexivity.
  - split; [| right; reflexivity]. split; [discriminate |].
    intros (-> & Hform). apply physical_address_pattern in Hform.
    rewrite Hm in Hform. discriminate Hform.
Qed.

(** ["1.1.255"] is a physical address. *)
Lemma ensure_physical_address_accepts_witness :
  ensure_physical_address (ArgStr "1.1.255") = inr "1.1.255"%string.
Proof.
  apply (proj2 (proj1 (ensure_physical_address_accepts (ArgStr "1.1.255") "1.1.255"))).
  split; [reflexivity |].
  exists "1"%string, "1"%string, "255"%string, false. repeat split.
Defined.

End ValidatorFacts.
